(** * Proxmox backup checker: the validation pipeline and its notifications

    A shallow embedding of [src/backup_checker.py], [src/notification_manager.py]
    and [main.py], and of [cleanup_test_files] of [test_logger.py].

    - Python [int] is [Z], [str] is [string] (UTF-8 bytes), [float] is the
      binary64 [float] of [PrimFloat]; a value that is an [int] on one path and
      a [float] on another ([usage_percent]) is a [pynum].
    - The dictionaries that travel between the modules have a fixed set of keys
      and become records; a key that is present on some paths only
      (['error'], ['files'], ['space'], ['backup']) is an [option] field, and a
      dictionary that may be [{}] is a two-constructor type.
    - Everything imported from [python_utils] (the file-system helpers, the size
      converters, the notifiers) and from the Python library (the clock) is a
      field of [python_utils]: a function of the outside world that returns a
      value or raises.
    - Effects are explicit: a computation takes the world and the list of
      external calls made so far, and returns a value or an exception together
      with the new world and the longer list.  An exception is recorded by its
      [str(e)], which is all the code looks at.  Only exceptions of class
      [Exception] are modelled ([except Exception] is the only handler that
      matters); [KeyboardInterrupt] is not.
    - Calls to the logger are left out: they do not feed any result.
    - [send_notifications] is embedded with the empty [else] branch that its
      text stands for; [run_process] is the program as Python starts it, where
      the module of that function does not compile. *)

From Stdlib Require Import String Ascii ZArith List Lia Bool.
From Stdlib Require Import Sorted Permutation.
From Stdlib Require Import DecimalString.
From Stdlib Require Import Floats.
Import ListNotations.

Local Open Scope list_scope.
Local Open Scope string_scope.
Local Open Scope Z_scope.

(** ** Strings *)

Module PyStr.

(** [f"{n}"] for an [int]. *)
Definition str_Z (z : Z) : string := NilZero.string_of_int (Z.to_int z).

(** The line feed of ["\n"]. *)
Definition nl : string := String "010"%char "".

(** [sep.join(l)]. *)
Definition join (sep : string) (l : list string) : string := String.concat sep l.

(** ["=" * n]. *)
Fixpoint repeat_str (s : string) (n : nat) : string :=
  match n with
  | O => ""
  | S n' => s ++ repeat_str s n'
  end.

(** [sub in s]. *)
Definition contains (s sub : string) : Prop :=
  exists before after, s = before ++ sub ++ after.

End PyStr.
Import PyStr.

(** ** Floats

    CPython's [int / int], [round(x, ndigits)] and [format(x, ".kf")] are all
    correctly rounded: each one is the exact rational result, rounded half to
    even into the target format.  They are written here over exact integer
    arithmetic on the sign, mantissa and exponent of the double. *)

Module PyFloat.

(** [n/d] rounded half to even, for [0 <= n] and [0 < d]. *)
Definition div_half_even (n d : Z) : Z :=
  let q := n / d in
  let r := n mod d in
  if (d <? 2 * r) || ((d =? 2 * r) && Z.odd q) then q + 1 else q.

(** The value of a finite double: sign, numerator, denominator. *)
Definition exact (x : float) : option (bool * Z * Z) :=
  match Prim2SF x with
  | S754_zero s => Some (s, 0, 1)
  | S754_finite s m e =>
      if 0 <=? e then Some (s, Z.pos m * 2 ^ e, 1) else Some (s, Z.pos m, 2 ^ (- e))
  | _ => None
  end.

(** The double nearest to [n/d], for [0 <= n] and [0 < d]; [None] when
    the quotient is beyond the largest double. *)
Definition nearest (n d : Z) : option float :=
  if n =? 0 then Some zero else
  let e0 := Z.log2 n - Z.log2 d - 53 in
  let scaled e := if 0 <=? e then n / (d * 2 ^ e) else (n * 2 ^ (- e)) / d in
  let e1 := if 2 ^ 53 <=? scaled e0 then e0 + 1 else e0 in
  let e := Z.max e1 (-1074) in
  let m := if 0 <=? e then div_half_even n (d * 2 ^ e)
           else div_half_even (n * 2 ^ (- e)) d in
  if 2 ^ 1024 <=? (if 0 <=? e then m * 2 ^ e else 0) then None
  else Some (Z.ldexp (of_uint63 (Uint63.of_Z m)) e).

Definition with_sign (s : bool) (f : float) : float :=
  if s then (- f)%float else f.

(** [a / b] on two [int]s: [ZeroDivisionError] or [OverflowError] is [inr]. *)
Definition truediv (a b : Z) : float + string :=
  if b =? 0 then inr "division by zero" else
  match nearest (Z.abs a) (Z.abs b) with
  | Some f => inl (with_sign (xorb (a <? 0) (b <? 0)) f)
  | None => inr "integer division result too large for a float"
  end.

(** [float(z)]. *)
Definition of_int (z : Z) : float + string :=
  match nearest (Z.abs z) 1 with
  | Some f => inl (with_sign (z <? 0) f)
  | None => inr "int too large to convert to float"
  end.

(** [round(x, ndigits)] for [0 <= ndigits]: NaN and the infinities round
    to themselves. *)
Definition round (x : float) (ndigits : Z) : float :=
  match exact x with
  | None => x
  | Some (s, n, d) =>
      match nearest (div_half_even (n * 10 ^ ndigits) d) (10 ^ ndigits) with
      | Some f => with_sign s f
      | None => x
      end
  end.

Fixpoint pad_left (k : nat) (s : string) : string :=
  match k with
  | O => s
  | S k' => if (String.length s <? S k')%nat then pad_left k' ("0" ++ s) else s
  end.

(** [f"{x:.kf}"] for a [float]. *)
Definition format_f (x : float) (k : nat) : string :=
  match exact x with
  | None => if is_nan x then "nan" else if get_sign x then "-inf" else "inf"
  | Some (s, n, d) =>
      let t := div_half_even (n * 10 ^ Z.of_nat k) d in
      let ip := str_Z (t / 10 ^ Z.of_nat k) in
      let fp := pad_left k (str_Z (t mod 10 ^ Z.of_nat k)) in
      (if s then "-" else "") ++ ip ++ match k with O => "" | _ => "." ++ fp end
  end.

End PyFloat.

(** A Python number that is an [int] or a [float]. *)
Inductive pynum : Type :=
| PyInt (z : Z)
| PyFlt (f : float).

(** [100 - x]: the [int] is converted when the other operand is a [float]. *)
Definition hundred_minus (x : pynum) : pynum :=
  match x with
  | PyInt z => PyInt (100 - z)
  | PyFlt f => PyFlt (100 - f)%float
  end.

(** [f"{x:.1f}"]: an [int] goes through [float(x)]. *)
Definition format_1f (x : pynum) : string + string :=
  match x with
  | PyInt z =>
      match PyFloat.of_int z with
      | inl f => inl (PyFloat.format_f f 1)
      | inr e => inr e
      end
  | PyFlt f => inl (PyFloat.format_f f 1)
  end.

(** ** Exceptions and the outside world *)

(** What a call yields: a value, or an exception [e] known by [str(e)]. *)
Inductive outcome (A : Type) : Type :=
| Ok (a : A)
| Raise (e : string).
Arguments Ok {A} a.
Arguments Raise {A} e.

(** The calls that leave the program. *)
Inductive call : Type :=
| Call_is_directory_accessible (backup_dir : string)
| Call_check_minimum_free_space (backup_dir : string) (min_bytes : Z)
| Call_get_disk_usage (backup_dir : string)
| Call_get_files_modified_within_days (backup_dir : string) (days : Z)
    (include_subdirs : bool)
| Call_datetime_now
| Call_time
| Call_send_email (to_emails : list string) (subject content : string)
| Call_pushover_send (message title : string) (priority : Z)
| Call_setup_backup_logging
| Call_config_path_exists
| Call_parse_config_file
| Call_EmailNotifier
| Call_PushoverNotifier
| Call_send_critical_backup_alert (message : string).

Record state (W : Type) : Type := mkState {
  world : W;
  calls : list call
}.
Arguments mkState {W} world calls.
Arguments world {W} s.
Arguments calls {W} s.

(** A computation: it may change the world, and an exception keeps the
    changes made before it was raised. *)
Definition M (W A : Type) : Type := state W -> outcome A * state W.

Definition ret {W A} (a : A) : M W A := fun st => (Ok a, st).

Definition bind {W A B} (m : M W A) (k : A -> M W B) : M W B :=
  fun st =>
    match m st with
    | (Ok a, st') => k a st'
    | (Raise e, st') => (Raise e, st')
    end.

(** [try: body  except Exception as e: handler(str(e))]. *)
Definition try_except {W A} (body : M W A) (handler : string -> M W A) : M W A :=
  fun st =>
    match body st with
    | (Ok a, st') => (Ok a, st')
    | (Raise e, st') => handler e st'
    end.

(** A pure helper that may raise. *)
Definition lift {W A} (o : outcome A) : M W A := fun st => (o, st).

Definition lift_sum {W A} (o : A + string) : M W A :=
  fun st => (match o with inl a => Ok a | inr e => Raise e end, st).

(** An external call: the world answers, and the call is recorded. *)
Definition ext {W A} (c : call) (f : W -> outcome A * W) : M W A :=
  fun st =>
    let (r, w') := f (world st) in
    (r, mkState w' (calls st ++ [c])).

(** An external call that does not raise (reading the clock). *)
Definition ext_total {W A} (c : call) (f : W -> A * W) : M W A :=
  fun st =>
    let (a, w') := f (world st) in
    (Ok a, mkState w' (calls st ++ [c])).

Declare Scope py_scope.
Delimit Scope py_scope with py.
Notation "x <- m ;; k" := (bind m (fun x => k))
  (at level 100, m at next level, right associativity) : py_scope.
Notation "' pat <- m ;; k" := (bind m (fun x => match x with pat => k end))
  (at level 100, pat pattern, m at next level, right associativity) : py_scope.
Local Open Scope py_scope.

(** ** The data model *)

(** [BackupCheckConfig] of [python_utils], by the attributes the code reads. *)
Record BackupCheckConfig : Type := mkConfig {
  cfg_name : string;
  cfg_backup_dir : string;
  cfg_days : Z;
  cfg_min_size : string
}.

(** [AppConfig] of [python_utils], by the attributes the code reads. *)
Record AppConfig : Type := mkAppConfig {
  backup_check_list : list BackupCheckConfig;
  min_free_space : string;
  to_email : list string;
  pushover_priority : Z
}.

(** The [space_info] dictionary of [check_free_space]. *)
Record SpaceInfo : Type := mkSpaceInfo {
  total_bytes : Z;
  used_bytes : Z;
  free_bytes : Z;
  total_human : string;
  used_human : string;
  free_human : string;
  space_min_required_human : string;
  usage_percent : pynum
}.

(** [space_info] is that dictionary, or [{}] after an exception. *)
Inductive space_dict : Type :=
| SpaceEmpty
| SpaceData (s : SpaceInfo).

Section Files.

(** The type of a modification time, with Python's [<] on it. *)
Context {Time : Type}.

(** An entry of [file_details]. *)
Record FileObservation : Type := mkFile {
  path : string;
  size_bytes : Z;
  size_human : string;
  modified_time : Time
}.

(** The [backup_info] dictionary of [check_backup_freshness]; the key
    ['files'] is absent when no file qualifies. *)
Record BackupInfo : Type := mkBackupInfo {
  file_count : Z;
  total_size_bytes : Z;
  total_size_human : string;
  files : option (list FileObservation);
  oldest_file : option FileObservation;
  newest_file : option FileObservation;
  backup_min_required_human : string
}.

Inductive backup_dict : Type :=
| BackupEmpty
| BackupData (b : BackupInfo).

(** The [result] dictionary of [run_all_checks].  ['info'] holds the keys
    ['space'] and ['backup'] once their probes have run; ['error'] is set
    on failure only. *)
Record CheckResult : Type := mkResult {
  r_name : string;
  r_backup_dir : string;
  r_success : bool;
  r_errors : list string;
  r_warnings : list string;
  r_info_space : option space_dict;
  r_info_backup : option backup_dict;
  r_error : option string
}.

End Files.
Arguments FileObservation Time : clear implicits.
Arguments BackupInfo Time : clear implicits.
Arguments backup_dict Time : clear implicits.
Arguments CheckResult Time : clear implicits.

(** What the program imports: [python_utils], and the clock and the file
    system of the Python library. *)
Record python_utils (W Time : Type) : Type := mkUtils {
  (* used by backup_checker.py *)
  is_directory_accessible : string -> W -> outcome bool * W;
  get_disk_usage : string -> W -> outcome (Z * Z * Z) * W;
  get_files_modified_within_days :
    string -> Z -> bool -> W -> outcome (list (string * Z * Time)) * W;
  parse_size_to_bytes : string -> outcome Z;
  bytes_to_human_readable : Z -> string;
  check_minimum_free_space : string -> Z -> W -> outcome (bool * string) * W;
  get_min_size_bytes : BackupCheckConfig -> outcome Z;
  time_lt : Time -> Time -> bool;
  (* used by notification_manager.py *)
  send_email : list string -> string -> string -> W -> outcome bool * W;
  pushover_send : string -> string -> Z -> W -> outcome bool * W;
  datetime_now : W -> string * W;
  (* used by main.py *)
  time_time : W -> float * W;
  setup_backup_logging : W -> outcome unit * W;
  config_path_exists : W -> outcome bool * W;
  parse_config_file : W -> outcome AppConfig * W;
  EmailNotifier : W -> outcome unit * W;
  PushoverNotifier : W -> outcome unit * W;
  send_critical_backup_alert : string -> W -> outcome unit * W
}.
Arguments is_directory_accessible {W Time} p.
Arguments get_disk_usage {W Time} p.
Arguments get_files_modified_within_days {W Time} p.
Arguments parse_size_to_bytes {W Time} p.
Arguments bytes_to_human_readable {W Time} p.
Arguments check_minimum_free_space {W Time} p.
Arguments get_min_size_bytes {W Time} p.
Arguments time_lt {W Time} p.
Arguments send_email {W Time} p.
Arguments pushover_send {W Time} p.
Arguments datetime_now {W Time} p.
Arguments time_time {W Time} p.
Arguments setup_backup_logging {W Time} p.
Arguments config_path_exists {W Time} p.
Arguments parse_config_file {W Time} p.
Arguments EmailNotifier {W Time} p.
Arguments PushoverNotifier {W Time} p.
Arguments send_critical_backup_alert {W Time} p.

(** ** backup_checker.py: [BackupChecker] *)

Section BackupChecker.

Context {W Time : Type} (U : python_utils W Time).

Local Abbreviation File := (FileObservation Time).
Local Abbreviation Result := (CheckResult Time).

(** The [try] suite of [check_directory_accessibility]. *)
Definition check_directory_accessibility_try (backup_dir : string) : M W (bool * string) :=
  accessible <- ext (Call_is_directory_accessible backup_dir)
                    (is_directory_accessible U backup_dir) ;;
  if negb accessible
  then ret (false, "Directory not accessible or not mounted: " ++ backup_dir)
  else ret (true, "").

(** [check_directory_accessibility(backup_dir)] *)
Definition check_directory_accessibility (backup_dir : string) : M W (bool * string) :=
  try_except
    (check_directory_accessibility_try backup_dir)
    (fun e =>
       ret (false, "Error checking directory accessibility " ++ backup_dir ++ ": " ++ e)).

(** [round((used / total) * 100, 1) if total > 0 else 0] *)
Definition compute_usage_percent (used total : Z) : M W pynum :=
  if 0 <? total
  then q <- lift_sum (PyFloat.truediv used total) ;;
       ret (PyFlt (PyFloat.round (q * 100)%float 1))
  else ret (PyInt 0).

(** The [try] suite of [check_free_space]. *)
Definition check_free_space_try (backup_dir min_free_space : string)
  : M W (bool * string * space_dict) :=
  min_bytes <- lift (parse_size_to_bytes U min_free_space) ;;
  '(has_space, message) <-
     ext (Call_check_minimum_free_space backup_dir min_bytes)
         (check_minimum_free_space U backup_dir min_bytes) ;;
  '(total, used, free) <-
     ext (Call_get_disk_usage backup_dir) (get_disk_usage U backup_dir) ;;
  percent <- compute_usage_percent used total ;;
  let space_info :=
    {| total_bytes := total;
       used_bytes := used;
       free_bytes := free;
       total_human := bytes_to_human_readable U total;
       used_human := bytes_to_human_readable U used;
       free_human := bytes_to_human_readable U free;
       space_min_required_human := bytes_to_human_readable U min_bytes;
       usage_percent := percent |} in
  if has_space
  then ret (true, "", SpaceData space_info)
  else ret (false, message, SpaceData space_info).

(** [check_free_space(backup_dir, min_free_space)] *)
Definition check_free_space (backup_dir min_free_space : string)
  : M W (bool * string * space_dict) :=
  try_except
    (check_free_space_try backup_dir min_free_space)
    (fun e =>
       ret (false, "Error checking free space for " ++ backup_dir ++ ": " ++ e, SpaceEmpty)).

(** The entry that [check_backup_freshness] appends to [file_details] for one
    tuple of [recent_files]. *)
Definition file_detail (f : string * Z * Time) : File :=
  let '(file_path, file_size, mtime) := f in
  {| path := file_path;
     size_bytes := file_size;
     size_human := bytes_to_human_readable U file_size;
     modified_time := mtime |}.

(** The loop of [check_backup_freshness] over [recent_files]: it adds up the
    sizes and appends one entry per file. *)
Definition collect_files (recent_files : list (string * Z * Time)) : Z * list File :=
  fold_left
    (fun acc f =>
       let '(total_size, file_details) := acc in
       let '(file_path, file_size, mtime) := f in
       (total_size + file_size, (file_details ++ [ file_detail f ])%list))
    recent_files (0, []).

(** [file_details.sort(key=lambda x: x['modified_time'], reverse=True)]:
    Python's sort is stable, also with [reverse=True], so an entry goes
    behind every entry that came before it and is not older. *)
Fixpoint insert_desc (x : File) (l : list File) : list File :=
  match l with
  | [] => [x]
  | y :: l' =>
      if time_lt U (modified_time y) (modified_time x)
      then x :: y :: l'
      else y :: insert_desc x l'
  end.

Definition sort_desc (l : list File) : list File :=
  fold_left (fun sorted x => insert_desc x sorted) l [].

(** [l[-1] if l else None] *)
Definition last_or_none {A : Type} (l : list A) : option A := hd_error (rev l).

(** The [try] suite of [check_backup_freshness]. *)
Definition check_backup_freshness_try (backup_config : BackupCheckConfig)
  : M W (bool * string * backup_dict Time) :=
  let backup_dir := cfg_backup_dir backup_config in
  let days := cfg_days backup_config in
  recent_files <-
     ext (Call_get_files_modified_within_days backup_dir days false)
         (get_files_modified_within_days U backup_dir days false) ;;
  match recent_files with
  | [] =>
      let error_msg :=
        "No files found modified within " ++ str_Z days ++ " days in " ++ backup_dir in
      ret (false, error_msg,
           BackupData {| file_count := 0;
                         total_size_bytes := 0;
                         total_size_human := "0 B";
                         files := None;
                         oldest_file := None;
                         newest_file := None;
                         backup_min_required_human := cfg_min_size backup_config |})
  | _ :: _ =>
      let '(total_size, unsorted) := collect_files recent_files in
      let file_details := sort_desc unsorted in
      let backup_info :=
        {| file_count := Z.of_nat (length file_details);
           total_size_bytes := total_size;
           total_size_human := bytes_to_human_readable U total_size;
           files := Some (firstn 5 file_details);
           oldest_file := last_or_none file_details;
           newest_file := hd_error file_details;
           backup_min_required_human := cfg_min_size backup_config |} in
      min_size_bytes <- lift (get_min_size_bytes U backup_config) ;;
      if total_size <? min_size_bytes
      then
        ret (false,
             "Backup size " ++ bytes_to_human_readable U total_size
               ++ " is below minimum requirement " ++ cfg_min_size backup_config,
             BackupData backup_info)
      else ret (true, "", BackupData backup_info)
  end.

(** [check_backup_freshness(backup_config)] *)
Definition check_backup_freshness (backup_config : BackupCheckConfig)
  : M W (bool * string * backup_dict Time) :=
  try_except
    (check_backup_freshness_try backup_config)
    (fun e =>
       ret (false,
            "Error checking backup freshness for " ++ cfg_backup_dir backup_config
              ++ ": " ++ e,
            BackupEmpty)).

(** Updates of the [result] dictionary. *)
Definition set_failed (r : Result) (msg : string) : Result :=
  {| r_name := r_name r; r_backup_dir := r_backup_dir r;
     r_success := false;
     r_errors := (r_errors r ++ [msg])%list;
     r_warnings := r_warnings r;
     r_info_space := r_info_space r; r_info_backup := r_info_backup r;
     r_error := r_error r |}.

Definition set_error (r : Result) (e : string) : Result :=
  {| r_name := r_name r; r_backup_dir := r_backup_dir r;
     r_success := r_success r; r_errors := r_errors r; r_warnings := r_warnings r;
     r_info_space := r_info_space r; r_info_backup := r_info_backup r;
     r_error := Some e |}.

Definition set_info_space (r : Result) (s : space_dict) : Result :=
  {| r_name := r_name r; r_backup_dir := r_backup_dir r;
     r_success := r_success r; r_errors := r_errors r; r_warnings := r_warnings r;
     r_info_space := Some s; r_info_backup := r_info_backup r;
     r_error := r_error r |}.

Definition set_info_backup (r : Result) (b : backup_dict Time) : Result :=
  {| r_name := r_name r; r_backup_dir := r_backup_dir r;
     r_success := r_success r; r_errors := r_errors r; r_warnings := r_warnings r;
     r_info_space := r_info_space r; r_info_backup := Some b;
     r_error := r_error r |}.

(** The body of the [for] loop of [run_all_checks], for one configuration:
    the result it appends to [results]. *)
Definition check_one (min_free : string) (backup_config : BackupCheckConfig) : M W Result :=
  let backup_name := cfg_name backup_config in
  let backup_dir := cfg_backup_dir backup_config in
  let result :=
    {| r_name := backup_name; r_backup_dir := backup_dir;
       r_success := true; r_errors := []; r_warnings := [];
       r_info_space := None; r_info_backup := None; r_error := None |} in
  (* Step 1: Check directory accessibility *)
  '(accessible, access_error) <- check_directory_accessibility backup_dir ;;
  if negb accessible
  then
    let result := set_failed result ("Directory not accessible: " ++ access_error) in
    let result := set_error result access_error in
    (* results.append(result); continue *)
    ret result
  else
    (* Step 2: Check free space *)
    '(has_space, space_error, space_info) <- check_free_space backup_dir min_free ;;
    let result :=
      if negb has_space
      then set_failed result ("Insufficient free space: " ++ space_error)
      else result in
    let result := set_info_space result space_info in
    (* Step 3: Check backup freshness and size *)
    '(is_fresh, freshness_error, backup_info) <- check_backup_freshness backup_config ;;
    let result :=
      if negb is_fresh
      then set_failed result ("Backup validation failed: " ++ freshness_error)
      else result in
    let result := set_info_backup result backup_info in
    let result :=
      if negb (r_success result)
      then set_error result (join "; " (r_errors result))
      else result in
    ret result.

(** The [for] loop: [results] grows by one entry per configuration. *)
Fixpoint run_loop (min_free : string) (backup_configs : list BackupCheckConfig)
  (results : list Result) : M W (list Result) :=
  match backup_configs with
  | [] => ret results
  | backup_config :: rest =>
      result <- check_one min_free backup_config ;;
      run_loop min_free rest (results ++ [result])%list
  end.

(** [run_all_checks(backup_configs, min_free_space)] *)
Definition run_all_checks (backup_configs : list BackupCheckConfig) (min_free : string)
  : M W (list Result) :=
  run_loop min_free backup_configs [].

(** The counts of the closing log line of [run_all_checks]. *)
Definition successful_count (results : list Result) : Z :=
  Z.of_nat (length (filter (fun r => r_success r) results)).

Definition failed_count (results : list Result) : Z :=
  Z.of_nat (length results) - successful_count results.

End BackupChecker.

(** ** notification_manager.py: [NotificationManager] *)

Section NotificationManager.

Context {W Time : Type} (U : python_utils W Time) (config : AppConfig).

Local Abbreviation Result := (CheckResult Time).

(** An entry of [critical_failures]. *)
Record CriticalFailure : Type := mkFailure {
  backup_name : string;
  failure_error : string
}.

(** [r.get('success', False)]: the key is always there. *)
Definition passed (r : Result) : bool := r_success r.
Definition failed (r : Result) : bool := negb (r_success r).

(** [result.get('error', 'Unknown error')] *)
Definition get_error (r : Result) : string :=
  match r_error r with
  | Some e => e
  | None => "Unknown error"
  end.

(** The lines that the [for] loop of [_create_email_content] appends for the
    [i]-th result. *)
Definition detail_lines (i : Z) (result : Result) : outcome (list string) :=
  let status := if passed result then "✅ PASSED" else "❌ FAILED" in
  let head :=
    [ str_Z i ++ ". " ++ r_name result ++ " - " ++ status;
      "   Directory: " ++ r_backup_dir result ] in
  let backup_lines :=
    match r_info_backup result with
    | Some (BackupData backup_info) =>
        [ "   Files: " ++ str_Z (file_count backup_info)
            ++ ", Size: " ++ total_size_human backup_info ]
    | _ => []
    end in
  let error_lines :=
    if failed result then [ "   ❌ Error: " ++ get_error result ] else [] in
  let space_lines :=
    match r_info_space result with
    | Some (SpaceData space_info) =>
        match format_1f (hundred_minus (usage_percent space_info)) with
        | inl free_percent =>
            Ok [ "   Free space: " ++ free_human space_info
                   ++ " (" ++ free_percent ++ "% free)" ]
        | inr e => Raise e
        end
    | _ => Ok []
    end in
  match space_lines with
  | Ok space_lines => Ok (head ++ backup_lines ++ space_lines ++ error_lines ++ [ "" ])%list
  | Raise e => Raise e
  end.

(** [for i, result in enumerate(check_results, 1)] *)
Fixpoint details_loop (i : Z) (check_results : list Result) (content_lines : list string)
  : outcome (list string) :=
  match check_results with
  | [] => Ok content_lines
  | result :: rest =>
      match detail_lines i result with
      | Ok lines => details_loop (i + 1) rest (content_lines ++ lines)%list
      | Raise e => Raise e
      end
  end.

(** The entries of the failed-backups summary. *)
Definition summary_entries (check_results : list Result) : list string :=
  map (fun result => "• " ++ r_name result ++ ": " ++ get_error result)
      (filter failed check_results).

Definition summary_title : string := "FAILED BACKUPS SUMMARY".

(** The section that follows the details: nothing when no backup failed. *)
Definition summary_section (failed_backups : Z) (check_results : list Result)
  : list string :=
  if 0 <? failed_backups
  then ([ summary_title; repeat_str "=" 50 ] ++ summary_entries check_results ++ [ "" ])%list
  else [].

Definition email_subject (failed_backups total_backups : Z) : string :=
  if 0 <? failed_backups
  then "⚠️ Backup Check Alert - " ++ str_Z failed_backups ++ "/"
         ++ str_Z total_backups ++ " Failed"
  else "✅ Backup Check Success - All " ++ str_Z total_backups ++ " Passed".

Definition header_lines (timestamp : string) (duration : float)
  (total_backups successful_backups failed_backups : Z) : list string :=
  [ "PROXMOX BACKUP CHECK REPORT";
    repeat_str "=" 50;
    "Timestamp: " ++ timestamp;
    "Duration: " ++ PyFloat.format_f duration 2 ++ " seconds";
    "Total backups checked: " ++ str_Z total_backups;
    "Successful: " ++ str_Z successful_backups;
    "Failed: " ++ str_Z failed_backups;
    "";
    "BACKUP DETAILS";
    repeat_str "=" 50 ].

Definition footer_lines (timestamp : string) : list string :=
  [ repeat_str "=" 50;
    "Generated by Proxmox Backup Checker";
    "Report time: " ++ timestamp ].

(** The list [content_lines] of [_create_email_content] before it is joined. *)
Definition email_lines (timestamp : string) (check_results : list Result)
  (duration : float) : outcome (list string) :=
  let total_backups := Z.of_nat (length check_results) in
  let successful_backups := Z.of_nat (length (filter passed check_results)) in
  let failed_backups := total_backups - successful_backups in
  match details_loop 1 check_results
          (header_lines timestamp duration total_backups successful_backups failed_backups)
  with
  | Ok content_lines =>
      Ok (content_lines ++ summary_section failed_backups check_results
            ++ footer_lines timestamp)%list
  | Raise e => Raise e
  end.

(** [_create_email_content(check_results, duration)] *)
Definition _create_email_content (check_results : list Result) (duration : float)
  : M W (string * string) :=
  timestamp <- ext_total Call_datetime_now (datetime_now U) ;;
  let total_backups := Z.of_nat (length check_results) in
  let successful_backups := Z.of_nat (length (filter passed check_results)) in
  let failed_backups := total_backups - successful_backups in
  let subject := email_subject failed_backups total_backups in
  content_lines <- lift (email_lines timestamp check_results duration) ;;
  ret (subject, join nl content_lines).

(** [_send_email_summary(check_results, duration)] *)
Definition _send_email_summary (check_results : list Result) (duration : float)
  : M W bool :=
  try_except
    ('(subject, content) <- _create_email_content check_results duration ;;
     ext (Call_send_email (to_email config) subject content)
         (send_email U (to_email config) subject content))
    (fun e => ret false).

(** The title and the message of the push alert. *)
Definition alert_title (critical_failures : list CriticalFailure) : string :=
  match critical_failures with
  | [ failure ] => "Backup Alert: " ++ backup_name failure
  | _ =>
      "Multiple Backup Failures ("
        ++ str_Z (Z.of_nat (length critical_failures)) ++ ")"
  end.

Definition failure_line (f : CriticalFailure) : string :=
  "• " ++ backup_name f ++ ": " ++ failure_error f.

Definition alert_summary (check_results : list Result) (duration : float) : string :=
  let failed_count := Z.of_nat (length (filter failed check_results)) in
  let total_count := Z.of_nat (length check_results) in
  nl ++ nl ++ "Summary: " ++ str_Z failed_count ++ "/" ++ str_Z total_count
     ++ " backups failed (" ++ PyFloat.format_f duration 1 ++ "s)".

Definition alert_message (critical_failures : list CriticalFailure)
  (check_results : list Result) (duration : float) : string :=
  match critical_failures with
  | [ failure ] =>
      "CRITICAL: Backup '" ++ backup_name failure ++ "' failed" ++ nl
        ++ failure_error failure
  | _ =>
      "CRITICAL: " ++ str_Z (Z.of_nat (length critical_failures))
        ++ " backup failures detected" ++ nl ++ nl
        ++ join nl (map failure_line critical_failures)
  end
  ++ alert_summary check_results duration.

(** [_send_pushover_alerts(critical_failures, check_results, duration)] *)
Definition _send_pushover_alerts (critical_failures : list CriticalFailure)
  (check_results : list Result) (duration : float) : M W bool :=
  try_except
    (let message := alert_message critical_failures check_results duration in
     let title := alert_title critical_failures in
     ext (Call_pushover_send message title 0) (pushover_send U message title 0))
    (fun e => ret false).

(** The list [critical_failures] of [send_notifications]: every failed
    backup is critical. *)
Definition critical_failures_of (check_results : list Result) : list CriticalFailure :=
  map (fun result => {| backup_name := r_name result; failure_error := get_error result |})
      (filter failed check_results).

(** [send_notifications(check_results, duration)].  The [else:] of the source
    holds nothing but the commented-out summary push, which Python does not
    accept as a block; it is read as the empty branch it stands for. *)
Definition send_notifications (check_results : list Result) (duration : float)
  : M W bool :=
  let critical_failures := critical_failures_of check_results in
  let notification_success := true in
  email_success <- _send_email_summary check_results duration ;;
  let notification_success := if email_success then notification_success else false in
  match critical_failures with
  | _ :: _ =>
      pushover_success <- _send_pushover_alerts critical_failures check_results duration ;;
      ret (if pushover_success then notification_success else false)
  | [] => ret notification_success
  end.

End NotificationManager.

(** ** main.py *)

Section Main.

Context {W Time : Type} (U : python_utils W Time).

(** [NotificationManager(config=config, logger=logger)]: it builds the two
    notifiers. *)
Definition NotificationManager_init : M W unit :=
  _ <- ext Call_EmailNotifier (EmailNotifier U) ;;
  ext Call_PushoverNotifier (PushoverNotifier U).

(** [main()]: the value it returns is the exit code of the process. *)
Definition main : M W Z :=
  start_time <- ext_total Call_time (time_time U) ;;
  try_except
    (_ <- ext Call_setup_backup_logging (setup_backup_logging U) ;;
     config_found <- ext Call_config_path_exists (config_path_exists U) ;;
     if negb config_found then ret 1 else
     loaded <- try_except
                 (config <- ext Call_parse_config_file (parse_config_file U) ;;
                  ret (Some config))
                 (fun e => ret None) ;;
     match loaded with
     | None => ret 1
     | Some config =>
         _ <- NotificationManager_init ;;
         check_results <-
           run_all_checks U (backup_check_list config) (min_free_space config) ;;
         now <- ext_total Call_time (time_time U) ;;
         let duration := (now - start_time)%float in
         notification_success <- send_notifications U config check_results duration ;;
         let total_backups := Z.of_nat (length (backup_check_list config)) in
         let successful_backups :=
           Z.of_nat (length (filter (fun r => r_success r) check_results)) in
         let failed_backups := total_backups - successful_backups in
         ret (if 0 <? failed_backups then 1 else 0)
     end)
    (fun e =>
       let error_msg := "Critical application error: " ++ e in
       _ <- try_except
              (ext (Call_send_critical_backup_alert
                      ("Proxmox Backup Checker CRASHED: " ++ error_msg))
                   (send_critical_backup_alert U
                      ("Proxmox Backup Checker CRASHED: " ++ error_msg)))
              (fun _ => ret tt) ;;
       ret 1).

End Main.

(** ** The program as it is started: [python main.py] *)

(** The double quote. *)
Definition dq : string := String "034"%char "".

(** Lines 101 to 108 of [notification_manager.py]: all there is under the
    [else:] of [send_notifications] before the [return] at the indentation of
    the [if]. *)
Definition else_suite : list string :=
  [ "            # Send low-priority summary if all backups passed";
    "            # if len(failed_backups) == 0:";
    "            #     pushover_success = self._send_pushover_summary(check_results, duration)";
    "            #     if pushover_success:";
    "            #         self.logger.info(" ++ dq ++ "✓ Pushover summary sent successfully"
      ++ dq ++ ")";
    "            #     else:";
    "            #         self.logger.warning(" ++ dq
      ++ "Failed to send Pushover summary (non-critical)" ++ dq ++ ")";
    "        " ].

Fixpoint lstrip (s : string) : string :=
  match s with
  | String " " s' => lstrip s'
  | _ => s
  end.

(** Python's tokenizer drops blank lines and comments: what is left is a
    statement. *)
Definition is_statement (line : string) : bool :=
  match lstrip line with
  | "" => false
  | String "#" _ => false
  | _ => true
  end.

(** A suite compiles only if it holds a statement. *)
Definition suite_compiles (suite : list string) : bool := existsb is_statement suite.

(** [from src.notification_manager import NotificationManager], line 30 of
    [main.py]: the import compiles the module. *)
Definition import_notification_manager : outcome unit :=
  if suite_compiles else_suite then Ok tt
  else Raise ("expected an indented block after 'else' statement on line 100"
              ++ " (notification_manager.py, line 109)").

Section Process.

Context {W Time : Type} (U : python_utils W Time).

(** The process: the imports of [main.py] are at module level, outside the
    [try] of [main], so an exception there ends the process with status 1
    before [sys.exit(main())] is reached. *)
Definition run_process : M W Z :=
  match import_notification_manager with
  | Ok _ => main U
  | Raise _ => ret 1
  end.

End Process.

(** ** test_logger.py: [cleanup_test_files] *)

(** What [cleanup_test_files] does to the outside: a line it prints, a file
    it tries to remove. *)
Inductive cleanup_event : Type :=
| Printed (line : string)
| Removal (file_path : string).

(** What it uses of [os]: [os.path.exists] and [os.listdir] read the file
    system, [os.remove] changes it or raises [OSError]. *)
Record os_module (W : Type) : Type := mkOs {
  os_path_exists : string -> W -> bool;
  os_listdir : string -> W -> outcome (list string);
  os_remove : string -> W -> outcome unit * W
}.
Arguments os_path_exists {W} o.
Arguments os_listdir {W} o.
Arguments os_remove {W} o.

Section TestLogger.

Context {W : Type} (OS : os_module W).

(** [file.startswith("test_") or file.startswith("module")] *)
Definition is_test_log (file : string) : bool :=
  prefix "test_" file || prefix "module" file.

(** [for file in os.listdir("log")]: a name that is selected has no leading
    slash, so [os.path.join("log", file)] puts "log/" before it. *)
Fixpoint cleanup_loop (files : list string) (w : W) : W * list cleanup_event :=
  match files with
  | [] => (w, [])
  | file :: rest =>
      if is_test_log file
      then
        let file_path := "log/" ++ file in
        match os_remove OS file_path w with
        | (Ok _, w1) =>
            let (w2, events) := cleanup_loop rest w1 in
            (w2, Removal file_path :: Printed ("✓ Removed " ++ file_path) :: events)
        | (Raise e, w1) =>
            let (w2, events) := cleanup_loop rest w1 in
            (w2, Removal file_path
                 :: Printed ("✗ Failed to remove " ++ file_path ++ ": " ++ e) :: events)
        end
      else cleanup_loop rest w
  end.

(** [cleanup_test_files()] *)
Definition cleanup_test_files (w : W) : outcome unit * W * list cleanup_event :=
  let banner := Printed "=== Cleaning Up Test Files ===" in
  if os_path_exists OS "log" w
  then
    match os_listdir OS "log" w with
    | Ok files =>
        let (w', events) := cleanup_loop files w in
        (Ok tt, w', banner :: events)
    | Raise e => (Raise e, w, [ banner ])
    end
  else (Ok tt, w, [ banner ]).

(** The files that a sequence of events tried to remove, and its lines. *)
Fixpoint removals (events : list cleanup_event) : list string :=
  match events with
  | [] => []
  | Removal file_path :: rest => file_path :: removals rest
  | Printed _ :: rest => removals rest
  end.

Fixpoint printed (events : list cleanup_event) : list string :=
  match events with
  | [] => []
  | Printed line :: rest => line :: printed rest
  | Removal _ :: rest => printed rest
  end.

End TestLogger.

(** ** The free-space helper of [python_utils] *)

(** Modelled from the spec: [check_minimum_free_space] of [python_utils], which
    [check_free_space] calls for its verdict and whose code is not part of the
    sources.  The spec of the free-space probe: it "reads filesystem
    total/used/free byte counts for the path", and "[sufficient] is true iff
    free >= minimum".  The wording of the message is left open. *)
Definition check_minimum_free_space_spec {W : Type}
  (disk_usage : string -> W -> outcome (Z * Z * Z) * W)
  (message : string -> Z -> Z -> string)
  (backup_dir : string) (min_bytes : Z) : W -> outcome (bool * string) * W :=
  fun w =>
    match disk_usage backup_dir w with
    | (Ok (total, used, free), w') =>
        (Ok (min_bytes <=? free,
             if min_bytes <=? free then "" else message backup_dir free min_bytes), w')
    | (Raise e, w') => (Raise e, w')
    end.

(** ** A world to run the model in *)

Module Demo.

(** What is behind a path: a mounted directory with its disk usage and its
    direct entries (name, size, modification time in seconds), a path that is
    not mounted, or one that makes every access fail. *)
Inductive dir_state : Type :=
| Mounted (total used free : Z) (entries : list (string * Z * Z))
| Unmounted
| Faulty (e : string).

Record world : Type := mkWorld {
  dirs : list (string * dir_state);
  clock : Z;
  mail_works : bool;
  push_works : bool;
  config_file : option AppConfig
}.

Fixpoint lookup (dir : string) (l : list (string * dir_state)) : option dir_state :=
  match l with
  | [] => None
  | (d, s) :: l' => if String.eqb d dir then Some s else lookup dir l'
  end.

Definition is_directory_accessible (dir : string) (w : world) : outcome bool * world :=
  match lookup dir (dirs w) with
  | Some (Mounted _ _ _ _) => (Ok true, w)
  | Some (Faulty e) => (Raise e, w)
  | _ => (Ok false, w)
  end.

Definition get_disk_usage (dir : string) (w : world) : outcome (Z * Z * Z) * world :=
  match lookup dir (dirs w) with
  | Some (Mounted total used free _) => (Ok (total, used, free), w)
  | Some (Faulty e) => (Raise e, w)
  | _ => (Raise ("No such file or directory: " ++ dir), w)
  end.

Definition get_files_modified_within_days (dir : string) (days : Z)
  (include_subdirs : bool) (w : world) : outcome (list (string * Z * Z)) * world :=
  match lookup dir (dirs w) with
  | Some (Mounted _ _ _ entries) =>
      (Ok (filter (fun f => clock w - days * 86400 <=? snd f) entries), w)
  | Some (Faulty e) => (Raise e, w)
  | _ => (Raise ("No such file or directory: " ++ dir), w)
  end.

Definition GB : Z := 2 ^ 30.

(** Sizes are written ["<n> GB"] in this world. *)
Definition parse_size_to_bytes (s : string) : outcome Z :=
  match index 0 " GB" s with
  | Some n =>
      match NilZero.uint_of_string (substring 0 n s) with
      | Some u =>
          if (String.length s =? n + 3)%nat
          then Ok (Z.of_uint u * GB)
          else Raise ("Invalid size format: " ++ s)
      | None => Raise ("Invalid size format: " ++ s)
      end
  | None => Raise ("Invalid size format: " ++ s)
  end.

Definition bytes_to_human_readable (n : Z) : string :=
  if n <? GB then str_Z n ++ " B"
  else
    match PyFloat.truediv n GB with
    | inl q => PyFloat.format_f q 1 ++ " GB"
    | inr _ => str_Z n ++ " B"
    end.

Definition shortfall_message (dir : string) (free min_bytes : Z) : string :=
  "Only " ++ bytes_to_human_readable free ++ " free in " ++ dir ++ ", "
    ++ bytes_to_human_readable (min_bytes - free) ++ " short of "
    ++ bytes_to_human_readable min_bytes.

Definition utils : python_utils world Z :=
  mkUtils world Z
    is_directory_accessible
    get_disk_usage
    get_files_modified_within_days
    parse_size_to_bytes
    bytes_to_human_readable
    (check_minimum_free_space_spec get_disk_usage shortfall_message)
    (fun c => parse_size_to_bytes (cfg_min_size c))
    Z.ltb
    (* send_email, pushover_send, datetime_now *)
    (fun _ _ _ w => (Ok (mail_works w), w))
    (fun _ _ _ w => (Ok (push_works w), w))
    (fun w => ("2024-05-01 06:00:00", w))
    (* time_time, setup_backup_logging *)
    (fun w => (of_uint63 (Uint63.of_Z (clock w)), w))
    (fun w => (Ok tt, w))
    (* config_path_exists, parse_config_file *)
    (fun w => (Ok (match config_file w with Some _ => true | None => false end), w))
    (fun w => (match config_file w with
               | Some c => Ok c
               | None => Raise "var/config.yaml: no such file"
               end, w))
    (* EmailNotifier, PushoverNotifier, send_critical_backup_alert *)
    (fun w => (Ok tt, w))
    (fun w => (Ok tt, w))
    (fun _ w => (Ok tt, w)).

Definition day : Z := 86400.

(** Four targets: [vm-100] holds two fresh files of 3 GB each, [vm-101]
    holds one file that is 30 days old, [vm-102] is not mounted, [vm-103]
    holds six fresh files of 2 GB in all and wants 5 GB. *)
Definition vm100 : BackupCheckConfig :=
  {| cfg_name := "vm-100"; cfg_backup_dir := "/mnt/backup/vm-100";
     cfg_days := 7; cfg_min_size := "5 GB" |}.

Definition vm101 : BackupCheckConfig :=
  {| cfg_name := "vm-101"; cfg_backup_dir := "/mnt/backup/vm-101";
     cfg_days := 7; cfg_min_size := "1 GB" |}.

Definition vm102 : BackupCheckConfig :=
  {| cfg_name := "vm-102"; cfg_backup_dir := "/mnt/backup/vm-102";
     cfg_days := 7; cfg_min_size := "1 GB" |}.

Definition vm103 : BackupCheckConfig :=
  {| cfg_name := "vm-103"; cfg_backup_dir := "/mnt/backup/vm-103";
     cfg_days := 7; cfg_min_size := "5 GB" |}.

Definition vm103_files : list (string * Z * Z) :=
  [ ("vzdump-103-a.vma.zst", 2 ^ 28, 94 * day);
    ("vzdump-103-b.vma.zst", 2 ^ 29, 96 * day);
    ("vzdump-103-c.vma.zst", 2 ^ 28, 95 * day);
    ("vzdump-103-d.vma.zst", 2 ^ 29, 99 * day);
    ("vzdump-103-e.vma.zst", 2 ^ 28, 97 * day);
    ("vzdump-103-f.vma.zst", 2 ^ 28, 98 * day) ].

Definition app_config (targets : list BackupCheckConfig) : AppConfig :=
  {| backup_check_list := targets;
     min_free_space := "50 GB";
     to_email := [ "admin@example.org" ];
     pushover_priority := -1 |}.

Definition the_dirs : list (string * dir_state) :=
  [ ("/mnt/backup/vm-100",
     Mounted (100 * GB) (50 * GB) (50 * GB)
       [ ("vzdump-100-a.vma.zst", 3 * GB, 100 * day - 3600);
         ("vzdump-100-b.vma.zst", 3 * GB, 99 * day) ]);
    ("/mnt/backup/vm-101",
     Mounted (100 * GB) (50 * GB) (50 * GB)
       [ ("vzdump-101-a.vma.zst", 3 * GB, 70 * day) ]);
    ("/mnt/backup/vm-102", Unmounted);
    ("/mnt/backup/vm-103", Mounted (100 * GB) (40 * GB) (60 * GB) vm103_files) ].

Definition the_world (targets : list BackupCheckConfig) : world :=
  {| dirs := the_dirs;
     clock := 100 * day;
     mail_works := true;
     push_works := true;
     config_file := Some (app_config targets) |}.

Definition start (targets : list BackupCheckConfig) : state world :=
  mkState (the_world targets) [].

(** The value of a run that returned. *)
Definition value {A : Type} (default : A) (r : outcome A * state world) : A :=
  match fst r with
  | Ok a => a
  | Raise _ => default
  end.

End Demo.

(** ** Worlds in which something goes wrong *)

Module Faults.

(** The world of [Demo] without its configuration file. *)
Definition no_config : state Demo.world :=
  mkState {| Demo.dirs := Demo.the_dirs; Demo.clock := 100 * Demo.day;
             Demo.mail_works := true; Demo.push_works := true;
             Demo.config_file := None |} [].

(** [Demo.utils] with an [EmailNotifier] that cannot be built. *)
Definition no_mailer : python_utils Demo.world Z :=
  mkUtils Demo.world Z
    (is_directory_accessible Demo.utils)
    (get_disk_usage Demo.utils)
    (get_files_modified_within_days Demo.utils)
    (parse_size_to_bytes Demo.utils)
    (bytes_to_human_readable Demo.utils)
    (check_minimum_free_space Demo.utils)
    (get_min_size_bytes Demo.utils)
    (time_lt Demo.utils)
    (send_email Demo.utils)
    (pushover_send Demo.utils)
    (datetime_now Demo.utils)
    (time_time Demo.utils)
    (setup_backup_logging Demo.utils)
    (config_path_exists Demo.utils)
    (parse_config_file Demo.utils)
    (fun w => (Raise "SMTP_HOST is not set", w))
    (PushoverNotifier Demo.utils)
    (send_critical_backup_alert Demo.utils).

(** Four entries, two of them modified at time 5 and two at time 7. *)
Definition entry (name : string) (mtime : Z) : FileObservation Z :=
  {| path := name; size_bytes := 1; size_human := "1 B"; modified_time := mtime |}.

Definition tied : list (FileObservation Z) :=
  [ entry "a" 5; entry "b" 7; entry "c" 5; entry "d" 7 ].

(** A directory [log] as a list of names; a name that holds "locked" cannot
    be removed. *)
Definition log_dir : os_module (list string) :=
  mkOs (list string)
    (fun path files => String.eqb path "log")
    (fun path files => Ok files)
    (fun file_path files =>
       match index 0 "locked" file_path with
       | Some _ => (Raise ("[Errno 13] Permission denied: '" ++ file_path ++ "'"), files)
       | None =>
           (Ok tt, filter (fun f => negb (String.eqb ("log/" ++ f) file_path)) files)
       end).

End Faults.

(** ** A disk that is almost empty *)

Module Rounding.

(** One target on a disk of 2000 bytes, of which 1 is used and 1999 are
    free; it holds one fresh file of one byte, and nothing is required of
    it. *)
Definition vm104 : BackupCheckConfig :=
  {| cfg_name := "vm-104"; cfg_backup_dir := "/mnt/backup/vm-104";
     cfg_days := 7; cfg_min_size := "0 GB" |}.

Definition the_world : Demo.world :=
  {| Demo.dirs :=
       [ ("/mnt/backup/vm-104",
          Demo.Mounted 2000 1 1999 [ ("vzdump-104-a.vma.zst", 1, 99 * Demo.day) ]) ];
     Demo.clock := 100 * Demo.day;
     Demo.mail_works := true;
     Demo.push_works := true;
     Demo.config_file :=
       Some {| backup_check_list := [ vm104 ];
               min_free_space := "0 GB";
               to_email := [ "admin@example.org" ];
               pushover_priority := -1 |} |}.

Definition start : state Demo.world := mkState the_world [].

End Rounding.

(** ** The vocabulary of the properties *)

(** A computation that returns: it raises in no state. *)
Definition never_raises {W A : Type} (m : M W A) : Prop :=
  forall st, exists a st', m st = (Ok a, st').

Section Vocabulary.

Context {W Time : Type} (U : python_utils W Time).

Local Abbreviation File := (FileObservation Time).
Local Abbreviation Result := (CheckResult Time).

(** What one round of the loop leaves in [results]. *)
Definition well_formed (c : BackupCheckConfig) (r : Result) : Prop :=
  r_name r = cfg_name c /\
  r_backup_dir r = cfg_backup_dir c /\
  (r_success r = true <-> r_errors r = []) /\
  (r_success r = false <-> exists e, r_error r = Some e).

(** [a] is not older than [b]: the order of the sorted report. *)
Definition not_older (a b : File) : Prop :=
  time_lt U (modified_time a) (modified_time b) = false.

(** The sizes of the files of a listing, added up. *)
Definition sum_sizes (recent_files : list (string * Z * Time)) : Z :=
  fold_right Z.add 0 (map (fun f => snd (fst f)) recent_files).

(** What [main] does before the checks, when every step of it succeeds:
    it reads the clock, sets up logging, finds and parses the configuration
    and builds the notifiers.  [None] is the missing configuration file. *)
Definition startup : M W (option AppConfig) :=
  _ <- ext_total Call_time (time_time U) ;;
  _ <- ext Call_setup_backup_logging (setup_backup_logging U) ;;
  config_found <- ext Call_config_path_exists (config_path_exists U) ;;
  if negb config_found then ret None else
  config <- ext Call_parse_config_file (parse_config_file U) ;;
  _ <- NotificationManager_init U ;;
  ret (Some config).

End Vocabulary.

(** A call that sends a push message. *)
Definition is_push (c : call) : Prop :=
  match c with
  | Call_pushover_send _ _ _ => True
  | _ => False
  end.

Section MoreVocabulary.

Context {W Time : Type} (U : python_utils W Time).

(** The entry [x] was modified at a time that Python's [<] does not tell
    from [t]. *)
Definition same_time (t : Time) (x : FileObservation Time) : bool :=
  negb (time_lt U t (modified_time x)) && negb (time_lt U (modified_time x) t).

End MoreVocabulary.

(** A call that [BackupChecker] makes: one of the four file-system helpers,
    the listing without subdirectories. *)
Definition is_checker_call (c : call) : Prop :=
  match c with
  | Call_is_directory_accessible _ => True
  | Call_check_minimum_free_space _ _ => True
  | Call_get_disk_usage _ => True
  | Call_get_files_modified_within_days _ _ false => True
  | _ => False
  end.

(** A result whose usage percent, if it has one, is what [check_free_space]
    stores: the integer 0 or a float. *)
Definition printable {Time : Type} (r : CheckResult Time) : Prop :=
  forall s, r_info_space r = Some (SpaceData s) ->
            usage_percent s = PyInt 0 \/ exists f, usage_percent s = PyFlt f.

(** The status that the report gives a result. *)
Definition status_text {Time : Type} (r : CheckResult Time) : string :=
  if r_success r then "✅ PASSED" else "❌ FAILED".

(** * Properties *)

Lemma Ok_inj {A : Type} (a b : A) : Ok a = Ok b -> a = b.
Proof. intros H. injection H as H. exact H. Qed.

Section MonadFacts.

Context {W : Type}.

Lemma bind_ok {A B} (m : M W A) (k : A -> M W B) st a st' :
  m st = (Ok a, st') -> bind m k st = k a st'.
Proof. intros H. unfold bind. rewrite H. reflexivity. Qed.

Lemma try_except_raise {A} (body : M W A) handler st e st' :
  body st = (Raise e, st') -> try_except body handler st = handler e st'.
Proof. intros H. unfold try_except. rewrite H. reflexivity. Qed.

Lemma try_except_never_raises {A} (body : M W A) handler :
  (forall e, never_raises (handler e)) -> never_raises (try_except body handler).
Proof.
  intros Hh st. unfold try_except.
  destruct (body st) as [[a | e] st1].
  - eauto.
  - apply Hh.
Qed.

Lemma ret_never_raises {A} (a : A) : never_raises (@ret W A a).
Proof. intros st. unfold ret. eauto. Qed.

End MonadFacts.

Section CheckerFacts.

Context {W Time : Type} (U : python_utils W Time).

Local Abbreviation Result := (CheckResult Time).

(** *** The probes return *)

Lemma check_directory_accessibility_returns backup_dir :
  never_raises (check_directory_accessibility U backup_dir).
Proof.
  apply try_except_never_raises. intros e. apply ret_never_raises.
Qed.

Lemma check_free_space_returns backup_dir min_free :
  never_raises (check_free_space U backup_dir min_free).
Proof.
  apply try_except_never_raises. intros e. apply ret_never_raises.
Qed.

Lemma check_backup_freshness_returns backup_config :
  never_raises (check_backup_freshness U backup_config).
Proof.
  apply try_except_never_raises. intros e. apply ret_never_raises.
Qed.

(** *** Failures of the outside world end up in the result *)

Lemma is_directory_accessible_raises backup_dir st e w' :
  is_directory_accessible U backup_dir (world st) = (Raise e, w') ->
  check_directory_accessibility U backup_dir st =
    (Ok (false, "Error checking directory accessibility " ++ backup_dir ++ ": " ++ e),
     mkState w' (calls st ++ [ Call_is_directory_accessible backup_dir ])).
Proof.
  intros H.
  unfold check_directory_accessibility, check_directory_accessibility_try,
    try_except, bind, ext.
  rewrite H. reflexivity.
Qed.

Lemma parse_size_to_bytes_raises backup_dir min_free st e :
  parse_size_to_bytes U min_free = Raise e ->
  check_free_space U backup_dir min_free st =
    (Ok (false, "Error checking free space for " ++ backup_dir ++ ": " ++ e, SpaceEmpty),
     st).
Proof.
  intros H.
  unfold check_free_space, check_free_space_try, try_except, bind, lift.
  rewrite H. reflexivity.
Qed.

Lemma get_files_modified_within_days_raises backup_config st e w' :
  get_files_modified_within_days U (cfg_backup_dir backup_config)
    (cfg_days backup_config) false (world st) = (Raise e, w') ->
  check_backup_freshness U backup_config st =
    (Ok (false,
         "Error checking backup freshness for " ++ cfg_backup_dir backup_config
           ++ ": " ++ e,
         BackupEmpty),
     mkState w' (calls st ++
                 [ Call_get_files_modified_within_days (cfg_backup_dir backup_config)
                     (cfg_days backup_config) false ])).
Proof.
  intros H.
  unfold check_backup_freshness, check_backup_freshness_try, try_except, bind, ext.
  rewrite H. reflexivity.
Qed.

(** An inaccessible directory is reported without a further call. *)
Lemma check_one_inaccessible min_free c st access_error st1 :
  check_directory_accessibility U (cfg_backup_dir c) st = (Ok (false, access_error), st1) ->
  check_one U min_free c st =
    (Ok {| r_name := cfg_name c; r_backup_dir := cfg_backup_dir c;
           r_success := false;
           r_errors := [ "Directory not accessible: " ++ access_error ];
           r_warnings := [];
           r_info_space := None; r_info_backup := None;
           r_error := Some access_error |}, st1).
Proof.
  intros H. unfold check_one. rewrite (bind_ok _ _ _ _ _ H). reflexivity.
Qed.

Lemma app_not_nil {A} (l : list A) (x : A) : (l ++ [x])%list <> [].
Proof. destruct l; discriminate. Qed.

Lemma check_one_returns min_free c st :
  exists r st', check_one U min_free c st = (Ok r, st') /\ well_formed c r.
Proof.
  unfold check_one.
  destruct (check_directory_accessibility_returns (cfg_backup_dir c) st)
    as ([accessible access_error] & st1 & E1).
  rewrite (bind_ok _ _ _ _ _ E1).
  destruct accessible; simpl.
  - destruct (check_free_space_returns (cfg_backup_dir c) min_free st1)
      as ([[has_space space_error] space_info] & st2 & E2).
    rewrite (bind_ok _ _ _ _ _ E2).
    destruct (check_backup_freshness_returns c st2)
      as ([[is_fresh freshness_error] backup_info] & st3 & E3).
    rewrite (bind_ok _ _ _ _ _ E3).
    eexists. eexists. split; [reflexivity |].
    unfold well_formed.
    destruct has_space, is_fresh; simpl;
      repeat split; intros; try discriminate; try reflexivity; eauto;
      try (exfalso; eapply app_not_nil; eassumption);
      try (destruct H; discriminate).
  - eexists. eexists. split; [reflexivity |].
    unfold well_formed; simpl.
    repeat split; intros; try discriminate; eauto.
Qed.

(** *** The loop *)

Lemma run_loop_acc min_free configs : forall acc st,
  run_loop U min_free configs acc st =
    match run_loop U min_free configs [] st with
    | (Ok rs, st') => (Ok (acc ++ rs)%list, st')
    | (Raise e, st') => (Raise e, st')
    end.
Proof.
  induction configs as [| c cs IH]; intros acc st; simpl.
  - unfold ret. rewrite app_nil_r. reflexivity.
  - unfold bind. destruct (check_one U min_free c st) as [[r | e] st1]; [| reflexivity].
    rewrite (IH (acc ++ [r])%list), (IH ([] ++ [r])%list).
    destruct (run_loop U min_free cs [] st1) as [[rs | e] st2]; [| reflexivity].
    rewrite <- app_assoc. reflexivity.
Qed.

Lemma run_all_checks_nil min_free st :
  run_all_checks U [] min_free st = (Ok [], st).
Proof. reflexivity. Qed.

Lemma run_all_checks_cons min_free c cs st r st1 rs st2 :
  check_one U min_free c st = (Ok r, st1) ->
  run_all_checks U cs min_free st1 = (Ok rs, st2) ->
  run_all_checks U (c :: cs) min_free st = (Ok (r :: rs), st2).
Proof.
  unfold run_all_checks. intros E1 E2. simpl.
  rewrite (bind_ok _ _ _ _ _ E1), run_loop_acc, E2. reflexivity.
Qed.

Lemma run_all_checks_returns min_free configs : forall st,
  exists results st',
    run_all_checks U configs min_free st = (Ok results, st') /\
    Forall2 well_formed configs results.
Proof.
  induction configs as [| c cs IH]; intros st.
  - exists [], st. split; [reflexivity | constructor].
  - destruct (check_one_returns min_free c st) as (r & st1 & E1 & Hr).
    destruct (IH st1) as (rs & st2 & E2 & Hrs).
    exists (r :: rs), st2. split.
    + eapply run_all_checks_cons; eassumption.
    + constructor; assumption.
Qed.

Lemma run_all_checks_app min_free pre post st rs1 st1 rs2 st2 :
  run_all_checks U pre min_free st = (Ok rs1, st1) ->
  run_all_checks U post min_free st1 = (Ok rs2, st2) ->
  run_all_checks U (pre ++ post) min_free st = (Ok (rs1 ++ rs2)%list, st2).
Proof.
  revert st rs1. induction pre as [| c cs IH]; intros st rs1 E1 E2.
  - rewrite run_all_checks_nil in E1. inversion E1; subst. exact E2.
  - destruct (check_one_returns min_free c st) as (r & st' & Ec & _).
    destruct (run_all_checks_returns min_free cs st') as (rs & st'' & Ecs & _).
    rewrite (run_all_checks_cons _ _ _ _ _ _ _ _ Ec Ecs) in E1.
    inversion E1; subst.
    simpl. eapply run_all_checks_cons; [eassumption |].
    eapply IH; eassumption.
Qed.

End CheckerFacts.

(** ** The orchestrator: invariants and isolation *)

Section Orchestrator.

Context {W Time : Type} (U : python_utils W Time).

Local Abbreviation Result := (CheckResult Time).

Lemma filter_passed_failed (results : list Result) :
  (length (filter (@passed Time) results) + length (filter (@failed Time) results)
   = length results)%nat.
Proof.
  induction results as [| r rs IH]; simpl; [reflexivity |].
  unfold passed, failed in *. destruct (r_success r); simpl; lia.
Qed.

(** C1.  Every run of [run_all_checks] returns a list in which a result is
    successful exactly when its list of errors is empty, and in which the
    number of successes and the number of failures add up to the number of
    results, for the counts of [run_all_checks] and for the two lists
    [successful_backups] and [failed_backups] of [send_notifications]. *)
Theorem run_all_checks_invariant (configs : list BackupCheckConfig) (min_free : string)
  (st : state W) :
  exists results st',
    run_all_checks U configs min_free st = (Ok results, st') /\
    Forall (fun r : Result => r_success r = true <-> r_errors r = []) results /\
    successful_count results + failed_count results = Z.of_nat (length results) /\
    (length (filter (@passed Time) results) + length (filter (@failed Time) results)
     = length results)%nat.
Proof.
  destruct (run_all_checks_returns U min_free configs st) as (results & st' & E & Hwf).
  exists results, st'. split; [exact E |]. split; [| split].
  - clear E. induction Hwf as [| c r cs rs Hr _ IH]; constructor.
    + destruct Hr as (_ & _ & Hr & _). exact Hr.
    + exact IH.
  - unfold failed_count. lia.
  - apply filter_passed_failed.
Qed.

(** C4.  No probe lets an exception out: each of the three returns in every
    state, and when its [try] suite raises it returns [False], a message and,
    for the two probes that report data, the empty dictionary.  Hence
    [run_all_checks] returns in every state, with one result per configured
    target, in the order of the configuration. *)
Theorem probes_capture_failures :
  (forall backup_dir, never_raises (check_directory_accessibility U backup_dir)) /\
  (forall backup_dir min_free, never_raises (check_free_space U backup_dir min_free)) /\
  (forall backup_config, never_raises (check_backup_freshness U backup_config)) /\
  (forall backup_dir st e st',
      check_directory_accessibility_try U backup_dir st = (Raise e, st') ->
      check_directory_accessibility U backup_dir st =
        (Ok (false,
             "Error checking directory accessibility " ++ backup_dir ++ ": " ++ e), st')) /\
  (forall backup_dir min_free st e st',
      check_free_space_try U backup_dir min_free st = (Raise e, st') ->
      check_free_space U backup_dir min_free st =
        (Ok (false, "Error checking free space for " ++ backup_dir ++ ": " ++ e,
             SpaceEmpty), st')) /\
  (forall backup_config st e st',
      check_backup_freshness_try U backup_config st = (Raise e, st') ->
      check_backup_freshness U backup_config st =
        (Ok (false,
             "Error checking backup freshness for " ++ cfg_backup_dir backup_config
               ++ ": " ++ e,
             BackupEmpty), st')) /\
  (forall configs min_free st,
      exists results st',
        run_all_checks U configs min_free st = (Ok results, st') /\
        length results = length configs /\
        map (@r_name Time) results = map cfg_name configs).
Proof.
  repeat split.
  - apply check_directory_accessibility_returns.
  - apply check_free_space_returns.
  - apply check_backup_freshness_returns.
  - intros backup_dir st e st' H. unfold check_directory_accessibility.
    rewrite (try_except_raise _ _ _ _ _ H). reflexivity.
  - intros backup_dir min_free st e st' H. unfold check_free_space.
    rewrite (try_except_raise _ _ _ _ _ H). reflexivity.
  - intros backup_config st e st' H. unfold check_backup_freshness.
    rewrite (try_except_raise _ _ _ _ _ H). reflexivity.
  - intros configs min_free st.
    destruct (run_all_checks_returns U min_free configs st) as (results & st' & E & Hwf).
    exists results, st'. split; [exact E |]. clear E.
    induction Hwf as [| c r cs rs Hr _ [IHl IHn]]; [split; reflexivity |].
    destruct Hr as (Hn & _). simpl. rewrite IHl, IHn, Hn. split; reflexivity.
Qed.

End Orchestrator.

(** ** The freshness probe *)

Section Freshness.

Context {W Time : Type} (U : python_utils W Time).

Local Abbreviation File := (FileObservation Time).

Lemma collect_files_from recent_files : forall total_size file_details,
  fold_left
    (fun acc f =>
       let '(total_size, file_details) := acc in
       let '(file_path, file_size, mtime) := f in
       (total_size + file_size, (file_details ++ [ file_detail U f ])%list))
    recent_files (total_size, file_details)
  = (total_size + sum_sizes recent_files,
     (file_details ++ map (file_detail U) recent_files)%list).
Proof.
  induction recent_files as [| [[p sz] mt] fs IH]; intros total_size file_details.
  - cbn. rewrite app_nil_r. f_equal. unfold sum_sizes. simpl. lia.
  - cbn [fold_left]. rewrite IH. unfold sum_sizes. cbn [map fold_right fst snd].
    rewrite <- app_assoc. f_equal. lia.
Qed.

Lemma collect_files_spec recent_files :
  collect_files U recent_files = (sum_sizes recent_files, map (file_detail U) recent_files).
Proof. unfold collect_files. rewrite collect_files_from. reflexivity. Qed.

Lemma insert_desc_perm x l : Permutation (insert_desc U x l) (x :: l).
Proof.
  induction l as [| y l IH]; simpl; [reflexivity |].
  destruct (time_lt U (modified_time y) (modified_time x)); [reflexivity |].
  rewrite IH. apply perm_swap.
Qed.

Lemma sort_desc_from l : forall sorted,
  Permutation (fold_left (fun sorted x => insert_desc U x sorted) l sorted) (sorted ++ l).
Proof.
  induction l as [| x l IH]; intros sorted; simpl.
  - rewrite app_nil_r. reflexivity.
  - rewrite IH, insert_desc_perm. apply Permutation_middle.
Qed.

Lemma sort_desc_perm l : Permutation (sort_desc U l) l.
Proof. unfold sort_desc. apply (sort_desc_from l []). Qed.

Lemma sort_desc_length l : length (sort_desc U l) = length l.
Proof. apply Permutation_length, sort_desc_perm. Qed.

Section Order.

(** Python's [<] on modification times, as an order. *)
Hypothesis time_lt_asym :
  forall a b, time_lt U a b = true -> time_lt U b a = false.
Hypothesis time_ge_trans :
  forall a b c, time_lt U a b = false -> time_lt U b c = false -> time_lt U a c = false.

Lemma insert_desc_hd y x l :
  not_older U y x -> HdRel (not_older U) y l ->
  HdRel (not_older U) y (insert_desc U x l).
Proof.
  intros Hyx Hyl. destruct l as [| z l]; simpl.
  - constructor. exact Hyx.
  - destruct (time_lt U (modified_time z) (modified_time x)).
    + constructor. exact Hyx.
    + constructor. inversion Hyl. assumption.
Qed.

Lemma insert_desc_sorted x l :
  Sorted (not_older U) l -> Sorted (not_older U) (insert_desc U x l).
Proof.
  induction l as [| y l IH]; intros Hs; simpl.
  - repeat constructor.
  - destruct (time_lt U (modified_time y) (modified_time x)) eqn:E.
    + constructor; [exact Hs |]. constructor. apply time_lt_asym. exact E.
    + inversion Hs; subst. constructor; [apply IH; assumption |].
      apply insert_desc_hd; assumption.
Qed.

Lemma sort_desc_from_sorted l : forall sorted,
  Sorted (not_older U) sorted ->
  Sorted (not_older U) (fold_left (fun sorted x => insert_desc U x sorted) l sorted).
Proof.
  induction l as [| x l IH]; intros sorted Hs; simpl; [exact Hs |].
  apply IH, insert_desc_sorted, Hs.
Qed.

Lemma sort_desc_sorted l : StronglySorted (not_older U) (sort_desc U l).
Proof.
  apply Sorted_StronglySorted.
  - intros a b c Hab Hbc. exact (time_ge_trans _ _ _ Hab Hbc).
  - apply sort_desc_from_sorted. constructor.
Qed.

End Order.

Lemma strongly_sorted_split {A} (R : A -> A -> Prop) (l1 l2 : list A) :
  StronglySorted R (l1 ++ l2) ->
  forall a b, In a l1 -> In b l2 -> R a b.
Proof.
  induction l1 as [| x l1 IH]; intros Hs a b Ha Hb; [destruct Ha |].
  simpl in Hs. apply StronglySorted_inv in Hs. destruct Hs as [Hs Hx].
  destruct Ha as [-> | Ha].
  - rewrite Forall_forall in Hx. apply Hx, in_or_app. right. exact Hb.
  - apply IH; assumption.
Qed.

(** C3.  When the listing of a directory holds at least one qualifying file
    (the probe asks for direct entries only) and the minimum size is known,
    the freshness probe is valid exactly when the sizes of all listed files
    add up to the minimum at least; [file_count] and [total_size_bytes] count
    all of them; the report list is the first five of the entries sorted by
    modification time, newest first, so that no reported entry is older than
    one that is left out; and the message of a failure gives the measured
    total and the requirement. *)
Theorem freshness_verdict (backup_config : BackupCheckConfig) (st : state W) (w' : W)
  (recent_files : list (string * Z * Time)) (min_size_bytes : Z) :
  (forall a b, time_lt U a b = true -> time_lt U b a = false) ->
  (forall a b c, time_lt U a b = false -> time_lt U b c = false -> time_lt U a c = false) ->
  get_files_modified_within_days U (cfg_backup_dir backup_config) (cfg_days backup_config)
    false (world st) = (Ok recent_files, w') ->
  recent_files <> [] ->
  get_min_size_bytes U backup_config = Ok min_size_bytes ->
  exists valid message info sorted,
    check_backup_freshness U backup_config st =
      (Ok (valid, message, BackupData info),
       mkState w' (calls st ++
                   [ Call_get_files_modified_within_days (cfg_backup_dir backup_config)
                       (cfg_days backup_config) false ])) /\
    (valid = true <-> min_size_bytes <= sum_sizes recent_files) /\
    file_count info = Z.of_nat (length recent_files) /\
    total_size_bytes info = sum_sizes recent_files /\
    Permutation sorted (map (file_detail U) recent_files) /\
    StronglySorted (not_older U) sorted /\
    files info = Some (firstn 5 sorted) /\
    (forall kept dropped, In kept (firstn 5 sorted) -> In dropped (skipn 5 sorted) ->
                          not_older U kept dropped) /\
    newest_file info = hd_error sorted /\
    oldest_file info = last_or_none sorted /\
    (valid = false ->
     message = "Backup size " ++ bytes_to_human_readable U (sum_sizes recent_files)
                 ++ " is below minimum requirement " ++ cfg_min_size backup_config).
Proof.
  intros Hasym Htrans Hfiles Hne Hmin.
  pose (sorted := sort_desc U (map (file_detail U) recent_files)).
  assert (Hsorted : StronglySorted (not_older U) sorted)
    by (apply sort_desc_sorted; assumption).
  assert (Hsplit : forall kept dropped,
             In kept (firstn 5 sorted) -> In dropped (skipn 5 sorted) ->
             not_older U kept dropped).
  { apply strongly_sorted_split. rewrite firstn_skipn. exact Hsorted. }
  assert (Hlen : Z.of_nat (length sorted) = Z.of_nat (length recent_files)).
  { unfold sorted. rewrite sort_desc_length, length_map. reflexivity. }
  unfold check_backup_freshness, check_backup_freshness_try, try_except, bind, ext.
  rewrite Hfiles.
  destruct recent_files as [| f fs]; [contradiction |].
  rewrite collect_files_spec. unfold lift. rewrite Hmin.
  fold sorted.
  destruct (sum_sizes (f :: fs) <? min_size_bytes) eqn:E; unfold ret.
  - apply Z.ltb_lt in E.
    eexists false, _, _, sorted. split; [reflexivity |].
    cbn [file_count total_size_bytes files newest_file oldest_file].
    repeat split; try assumption; try reflexivity; try discriminate.
    + intros. lia.
    + apply sort_desc_perm.
  - apply Z.ltb_ge in E.
    eexists true, _, _, sorted. split; [reflexivity |].
    cbn [file_count total_size_bytes files newest_file oldest_file].
    repeat split; try assumption; try reflexivity; try discriminate.
    + intros _. exact E.
    + apply sort_desc_perm.
Qed.

End Freshness.

(** The probe on [vm-103]: six files of 2 GB in all against 5 GB. *)
Lemma freshness_verdict_witness :
  exists message info reported,
    check_backup_freshness Demo.utils Demo.vm103 (Demo.start []) =
      (Ok (false, message, BackupData info),
       mkState (Demo.the_world [])
         [ Call_get_files_modified_within_days "/mnt/backup/vm-103" 7 false ]) /\
    file_count info = 6 /\
    total_size_bytes info = 2 * Demo.GB /\
    files info = Some reported /\
    length reported = 5%nat /\
    message = "Backup size 2.0 GB is below minimum requirement 5 GB".
Proof.
  destruct (freshness_verdict Demo.utils Demo.vm103 (Demo.start []) (Demo.the_world [])
              Demo.vm103_files (5 * Demo.GB))
    as (valid & message & info & sorted & Hrun & Hvalid & Hcount & Hsize & Hperm
        & _ & Hfiles & _ & _ & _ & Hmsg).
  - intros a b H. apply Z.ltb_lt in H. apply Z.ltb_ge. lia.
  - intros a b c H1 H2. apply Z.ltb_ge in H1, H2. apply Z.ltb_ge. lia.
  - reflexivity.
  - discriminate.
  - reflexivity.
  - assert (Hv : valid = false).
    { destruct valid; [| reflexivity].
      destruct Hvalid as [Hvalid _]. specialize (Hvalid eq_refl).
      vm_compute in Hvalid. exfalso. apply Hvalid. reflexivity. }
    subst valid.
    exists message, info, (firstn 5 sorted).
    repeat split.
    + exact Hrun.
    + exact Hcount.
    + exact Hsize.
    + exact Hfiles.
    + rewrite length_firstn, (Permutation_length Hperm). reflexivity.
    + rewrite (Hmsg eq_refl). reflexivity.
Defined.

(** ** Strings: what a message contains *)

Section StringFacts.

Lemma append_assoc (a b c : string) : (a ++ b) ++ c = a ++ (b ++ c).
Proof. induction a as [| ch a IH]; simpl; [reflexivity | rewrite IH; reflexivity]. Qed.

Lemma append_nil_r (a : string) : a ++ "" = a.
Proof. induction a as [| ch a IH]; simpl; [reflexivity | rewrite IH; reflexivity]. Qed.

Lemma contains_refl (s : string) : contains s s.
Proof. exists "", "". simpl. rewrite append_nil_r. reflexivity. Qed.

Lemma contains_prepend (p s sub : string) : contains s sub -> contains (p ++ s) sub.
Proof.
  intros (before & after & ->). exists (p ++ before), after.
  rewrite append_assoc. reflexivity.
Qed.

Lemma contains_append (s q sub : string) : contains s sub -> contains (s ++ q) sub.
Proof.
  intros (before & after & ->). exists before, (after ++ q).
  rewrite !append_assoc. reflexivity.
Qed.

Lemma contains_trans (s t u : string) : contains s t -> contains t u -> contains s u.
Proof.
  intros (b1 & a1 & ->) (b2 & a2 & ->). exists (b1 ++ b2), (a2 ++ a1).
  rewrite !append_assoc. reflexivity.
Qed.

(** An element of a list is part of the joined string. *)
Lemma contains_join (sep x : string) (l : list string) :
  In x l -> contains (join sep l) x.
Proof.
  unfold join. induction l as [| y l IH]; intros Hin; [destruct Hin |].
  destruct Hin as [-> | Hin]; destruct l as [| z l]; simpl.
  - apply contains_refl.
  - apply contains_append, contains_refl.
  - destruct Hin.
  - apply contains_prepend, contains_prepend, IH, Hin.
Qed.

End StringFacts.

(** ** One target *)

Section Targets.

Context {W Time : Type} (U : python_utils W Time).

Local Abbreviation Result := (CheckResult Time).

Lemma check_directory_accessibility_calls backup_dir st r st' :
  check_directory_accessibility U backup_dir st = (r, st') ->
  calls st' = (calls st ++ [ Call_is_directory_accessible backup_dir ])%list.
Proof.
  unfold check_directory_accessibility, check_directory_accessibility_try,
    try_except, bind, ext, ret.
  destruct (is_directory_accessible U backup_dir (world st)) as [[[|] | e] w'];
    simpl; intros H; inversion H; reflexivity.
Qed.

(** C2.  When the accessibility probe fails for a target, in whatever
    position of the list, the result of that target is unsuccessful, its
    only error is the accessibility error, its space and backup records are
    absent, the only call made for it is the accessibility check, and the
    targets after it are processed from the state that check left. *)
Theorem inaccessible_target_is_skipped
  (pre post : list BackupCheckConfig) (c : BackupCheckConfig) (min_free : string)
  (st st1 st2 : state W) (rs1 : list Result) (access_error : string) :
  run_all_checks U pre min_free st = (Ok rs1, st1) ->
  check_directory_accessibility U (cfg_backup_dir c) st1 = (Ok (false, access_error), st2) ->
  exists rs2 st3,
    run_all_checks U post min_free st2 = (Ok rs2, st3) /\
    run_all_checks U (pre ++ c :: post) min_free st =
      (Ok (rs1 ++
           {| r_name := cfg_name c; r_backup_dir := cfg_backup_dir c;
              r_success := false;
              r_errors := [ ("Directory not accessible: " ++ access_error)%string ];
              r_warnings := [];
              r_info_space := None; r_info_backup := None;
              r_error := Some access_error |} :: rs2)%list, st3) /\
    calls st2 = (calls st1 ++ [ Call_is_directory_accessible (cfg_backup_dir c) ])%list.
Proof.
  intros Hpre Hacc.
  destruct (run_all_checks_returns U min_free post st2) as (rs2 & st3 & Hpost & _).
  exists rs2, st3. split; [exact Hpost |]. split.
  - eapply run_all_checks_app; [exact Hpre |].
    eapply run_all_checks_cons; [| exact Hpost].
    apply check_one_inaccessible. exact Hacc.
  - eapply check_directory_accessibility_calls. exact Hacc.
Qed.

(** C7.  When an accessible directory lists no file for the day window of
    its target, the freshness probe returns [False] with a message that
    names the window, and a record of zero files, zero bytes and no oldest or
    newest file; the result of the target is unsuccessful and its error
    contains that message. *)
Theorem no_recent_files_fails (c : BackupCheckConfig) (min_free : string)
  (st st1 st2 : state W) (w3 : W) (note : string)
  (has_space : bool) (space_error : string) (space_info : space_dict) :
  check_directory_accessibility U (cfg_backup_dir c) st = (Ok (true, note), st1) ->
  check_free_space U (cfg_backup_dir c) min_free st1 =
    (Ok (has_space, space_error, space_info), st2) ->
  get_files_modified_within_days U (cfg_backup_dir c) (cfg_days c) false (world st2)
    = (Ok [], w3) ->
  let window := "No files found modified within " ++ str_Z (cfg_days c) ++ " days" in
  let empty_info :=
    {| file_count := 0; total_size_bytes := 0; total_size_human := "0 B";
       files := None; oldest_file := None; newest_file := None;
       backup_min_required_human := cfg_min_size c |} in
  let st3 :=
    mkState w3 (calls st2 ++ [ Call_get_files_modified_within_days (cfg_backup_dir c)
                                 (cfg_days c) false ]) in
  check_backup_freshness U c st2 =
    (Ok (false, window ++ " in " ++ cfg_backup_dir c, BackupData empty_info), st3) /\
  exists r error,
    check_one U min_free c st = (Ok r, st3) /\
    r_success r = false /\
    r_info_backup r = Some (BackupData empty_info) /\
    r_error r = Some error /\
    contains error window.
Proof.
  intros Hacc Hspace Hfiles window empty_info st3.
  assert (Hfresh : check_backup_freshness U c st2 =
            (Ok (false, window ++ " in " ++ cfg_backup_dir c, BackupData empty_info), st3)).
  { unfold check_backup_freshness, check_backup_freshness_try, try_except, bind, ext.
    rewrite Hfiles. unfold ret, window. rewrite !append_assoc. reflexivity. }
  split; [exact Hfresh |].
  unfold check_one.
  rewrite (bind_ok _ _ _ _ _ Hacc). cbn [negb].
  rewrite (bind_ok _ _ _ _ _ Hspace), (bind_ok _ _ _ _ _ Hfresh).
  unfold ret.
  destruct has_space;
    cbn [negb r_success r_errors r_error r_info_backup
         set_failed set_info_space set_info_backup set_error app];
    (eexists; eexists; split; [reflexivity |]; repeat (split; [reflexivity |]);
     eapply contains_trans;
     [ apply contains_join
         with (x := "Backup validation failed: " ++ window ++ " in " ++ cfg_backup_dir c);
       simpl; auto
     | apply contains_prepend, contains_append, contains_refl ]).
Qed.

End Targets.

(** [vm-102] is not mounted: it is reported between its two neighbours. *)
Lemma inaccessible_target_is_skipped_witness :
  exists r100 r101 st',
    run_all_checks Demo.utils [ Demo.vm100; Demo.vm102; Demo.vm101 ] "50 GB" (Demo.start [])
    = (Ok [ r100;
            {| r_name := "vm-102"; r_backup_dir := "/mnt/backup/vm-102";
               r_success := false;
               r_errors :=
                 [ "Directory not accessible: Directory not accessible or not mounted: /mnt/backup/vm-102" ];
               r_warnings := [];
               r_info_space := None; r_info_backup := None;
               r_error :=
                 Some "Directory not accessible or not mounted: /mnt/backup/vm-102" |};
            r101 ], st') /\
    r_name r100 = "vm-100" /\ r_name r101 = "vm-101".
Proof.
  pose (run1 := run_all_checks Demo.utils [ Demo.vm100 ] "50 GB" (Demo.start [])).
  pose (probe := check_directory_accessibility Demo.utils "/mnt/backup/vm-102" (snd run1)).
  destruct (inaccessible_target_is_skipped Demo.utils
              [ Demo.vm100 ] [ Demo.vm101 ] Demo.vm102 "50 GB"
              (Demo.start []) (snd run1) (snd probe) (Demo.value [] run1)
              "Directory not accessible or not mounted: /mnt/backup/vm-102")
    as (rs2 & st3 & Hpost & Hrun & _).
  - vm_compute. reflexivity.
  - vm_compute. reflexivity.
  - destruct (run_all_checks_returns Demo.utils "50 GB" [ Demo.vm101 ] (snd probe))
      as (rs & st4 & E & Hwf).
    rewrite E in Hpost. inversion Hpost; subst rs2 st3.
    inversion Hwf as [| c r cs rs' Hr Hrest]; subst.
    inversion Hrest; subst.
    exists (hd r (Demo.value [] run1)), r, st4.
    split; [exact Hrun |]. split; [reflexivity |].
    destruct Hr as (Hn & _). exact Hn.
Defined.

(** [vm-101] is mounted and holds no file of the last seven days. *)
Lemma no_recent_files_fails_witness :
  exists r st',
    check_one Demo.utils "50 GB" Demo.vm101 (Demo.start []) = (Ok r, st') /\
    r_success r = false /\
    r_error r =
      Some "Backup validation failed: No files found modified within 7 days in /mnt/backup/vm-101".
Proof.
  pose (st1 := snd (check_directory_accessibility Demo.utils "/mnt/backup/vm-101"
                      (Demo.start []))).
  pose (space := check_free_space Demo.utils "/mnt/backup/vm-101" "50 GB" st1).
  destruct (no_recent_files_fails Demo.utils Demo.vm101 "50 GB"
              (Demo.start []) st1 (snd space) (Demo.the_world []) ""
              true "" (snd (Demo.value (false, "", SpaceEmpty) space)))
    as (_ & r & error & Hrun & Hfail & _ & Herr & _).
  - vm_compute. reflexivity.
  - vm_compute. reflexivity.
  - vm_compute. reflexivity.
  - exists r. eexists. split; [exact Hrun |]. split; [exact Hfail |].
    vm_compute in Hrun. inversion Hrun; subst r. reflexivity.
Defined.

(** ** Notifications *)

Section Notifications.

Context {W Time : Type} (U : python_utils W Time) (config : AppConfig).

Local Abbreviation Result := (CheckResult Time).

(** The e-mail channel returns, whatever the clock, the formatting and the
    transport do, and it sends no push message. *)
Lemma _send_email_summary_returns (results : list Result) duration st :
  exists email_success st1 email_calls,
    _send_email_summary U config results duration st = (Ok email_success, st1) /\
    calls st1 = (calls st ++ email_calls)%list /\
    Forall (fun c => ~ is_push c) email_calls.
Proof.
  unfold _send_email_summary, _create_email_content, try_except, bind, ext_total, ext,
    lift, ret.
  destruct (datetime_now U (world st)) as [timestamp w1]. cbn [world calls].
  destruct (email_lines timestamp results duration) as [content_lines | e].
  - cbn [world calls].
    match goal with
    | |- context [send_email U ?a ?b ?c w1] =>
        destruct (send_email U a b c w1) as [[email_success | e] w2]
    end.
    + do 3 eexists. split; [reflexivity |]. cbn [calls]. split.
      * rewrite <- app_assoc. reflexivity.
      * repeat constructor; intros H; exact H.
    + do 3 eexists. split; [reflexivity |]. cbn [calls]. split.
      * rewrite <- app_assoc. reflexivity.
      * repeat constructor; intros H; exact H.
  - exists false. do 2 eexists. split; [reflexivity |]. cbn [calls]. split.
    + reflexivity.
    + repeat constructor; intros H; exact H.
Qed.

(** The push channel returns too: it makes one call, and an exception of
    the transport counts as a failure. *)
Lemma _send_pushover_alerts_returns failures (results : list Result) duration st :
  exists push_outcome w',
    pushover_send U (alert_message failures results duration) (alert_title failures) 0
      (world st) = (push_outcome, w') /\
    _send_pushover_alerts U failures results duration st =
      (Ok match push_outcome with Ok sent => sent | Raise _ => false end,
       mkState w' (calls st ++
                   [ Call_pushover_send (alert_message failures results duration)
                       (alert_title failures) 0 ])).
Proof.
  unfold _send_pushover_alerts, try_except, ext, ret.
  destruct (pushover_send U _ _ 0 (world st)) as [[sent | e] w'];
    do 2 eexists; split; reflexivity.
Qed.

Lemma send_notifications_returns (results : list Result) duration :
  never_raises (send_notifications U config results duration).
Proof.
  intros st. unfold send_notifications.
  destruct (_send_email_summary_returns results duration st)
    as (email_success & st1 & email_calls & E & _).
  rewrite (bind_ok _ _ _ _ _ E).
  destruct (critical_failures_of results) as [| f fs].
  - unfold ret. eauto.
  - destruct (_send_pushover_alerts_returns (f :: fs) results duration st1)
      as (push_outcome & w' & _ & P).
    rewrite (bind_ok _ _ _ _ _ P). unfold ret. eauto.
Qed.

Lemma critical_failures_length (results : list Result) :
  length (critical_failures_of results) = length (filter (@failed Time) results).
Proof. unfold critical_failures_of. apply length_map. Qed.

(** X1 (the routing that C5 describes).  Read with its [else] as the empty
    branch, [send_notifications] always sends the e-mail first and returns.
    With no failed result it makes no push call and returns the outcome of
    the e-mail.  With at least one it makes exactly one push call, with
    priority 0, and returns the conjunction of the two outcomes.  With one
    failed result the title of the push names its target and the message
    holds the target's name and error; with two or more the title gives their
    number and the message holds one line per failed target with its name and
    error. *)
Theorem notification_routing (results : list Result) (duration : float) (st : state W) :
  let failures := critical_failures_of results in
  let title := alert_title failures in
  let message := alert_message failures results duration in
  exists email_success st1 email_calls,
    _send_email_summary U config results duration st = (Ok email_success, st1) /\
    calls st1 = (calls st ++ email_calls)%list /\
    Forall (fun c => ~ is_push c) email_calls /\
    length failures = length (filter (@failed Time) results) /\
    match failures with
    | [] =>
        send_notifications U config results duration st = (Ok email_success, st1)
    | _ :: _ =>
        exists push_outcome w2,
          pushover_send U message title 0 (world st1) = (push_outcome, w2) /\
          send_notifications U config results duration st =
            (Ok (email_success
                 && match push_outcome with Ok sent => sent | Raise _ => false end),
             mkState w2 (calls st1 ++ [ Call_pushover_send message title 0 ]))
    end /\
    (forall r, filter (@failed Time) results = [ r ] ->
       title = "Backup Alert: " ++ r_name r /\
       contains message (r_name r) /\
       contains message (get_error r)) /\
    ((2 <= length failures)%nat ->
       title = "Multiple Backup Failures (" ++ str_Z (Z.of_nat (length failures)) ++ ")" /\
       forall r, In r results -> r_success r = false ->
         contains message ("• " ++ r_name r ++ ": " ++ get_error r)).
Proof.
  intros failures title message.
  destruct (_send_email_summary_returns results duration st)
    as (email_success & st1 & email_calls & E & Hcalls & Hnopush).
  exists email_success, st1, email_calls.
  split; [exact E |]. split; [exact Hcalls |]. split; [exact Hnopush |].
  split; [apply critical_failures_length |]. split; [| split].
  - unfold send_notifications. rewrite (bind_ok _ _ _ _ _ E).
    fold failures. subst title message.
    destruct failures as [| f fs] eqn:Ef.
    + unfold ret. destruct email_success; reflexivity.
    + destruct (_send_pushover_alerts_returns (f :: fs) results duration st1)
        as (push_outcome & w2 & Hp & P).
      exists push_outcome, w2. split; [exact Hp |].
      rewrite (bind_ok _ _ _ _ _ P). unfold ret.
      destruct email_success, push_outcome as [[|] | e]; reflexivity.
  - intros r Hr. subst title message failures.
    unfold critical_failures_of. rewrite Hr. cbn [map alert_title alert_message
      backup_name failure_error].
    split; [reflexivity |]. split.
    + apply contains_append, contains_prepend, contains_append, contains_refl.
    + apply contains_append. do 4 apply contains_prepend. apply contains_refl.
  - intros Hlen. subst title message.
    destruct failures as [| f1 [| f2 fs]] eqn:Ef; cbn [length] in Hlen; try lia.
    split; [reflexivity |].
    intros r Hin Hfail.
    unfold alert_message. apply contains_append. do 5 apply contains_prepend.
    apply contains_join.
    rewrite <- Ef. subst failures. unfold critical_failures_of.
    rewrite map_map. apply in_map_iff. exists r. split; [reflexivity |].
    apply filter_In. split; [exact Hin |]. unfold failed. rewrite Hfail. reflexivity.
Qed.

End Notifications.

(** ** The e-mail report *)

Section EmailReport.

Context {W Time : Type} (U : python_utils W Time).

Local Abbreviation Result := (CheckResult Time).

(** [total - successful], as [_create_email_content] counts the failures, is
    the number of failed results. *)
Lemma failed_backups_count (results : list Result) :
  Z.of_nat (length results) - Z.of_nat (length (filter (@passed Time) results))
  = Z.of_nat (length (filter (@failed Time) results)).
Proof. pose proof (filter_passed_failed results). lia. Qed.

Lemma numbered_line_not_title (i : Z) (rest : string) :
  str_Z i ++ rest <> summary_title.
Proof.
  unfold str_Z, summary_title.
  destruct (Z.to_int i) as [d | d]; cbn [NilZero.string_of_int];
    destruct d; cbn; discriminate.
Qed.

Lemma detail_lines_not_title (i : Z) (result : Result) (lines : list string) :
  detail_lines i result = Ok lines -> ~ In summary_title lines.
Proof.
  unfold detail_lines. intros H.
  assert (Hin : forall l1 l2 : list string,
             ~ In summary_title l1 -> ~ In summary_title l2 ->
             ~ In summary_title (l1 ++ l2)%list).
  { intros l1 l2 H1 H2 Hc. apply in_app_or in Hc. tauto. }
  assert (Hhead : ~ In summary_title
            [ str_Z i ++ ". " ++ r_name result ++ " - "
                ++ (if passed result then "✅ PASSED" else "❌ FAILED");
              "   Directory: " ++ r_backup_dir result ]).
  { intros [Hc | [Hc | []]].
    - exact (numbered_line_not_title _ _ Hc).
    - discriminate Hc. }
  assert (Hbackup : ~ In summary_title
            match r_info_backup result with
            | Some (BackupData backup_info) =>
                [ "   Files: " ++ str_Z (file_count backup_info)
                    ++ ", Size: " ++ total_size_human backup_info ]
            | _ => []
            end).
  { destruct (r_info_backup result) as [[| b] |]; intros Hc;
      try destruct Hc as [Hc | []]; try discriminate Hc; try destruct Hc. }
  assert (Herror : ~ In summary_title
            ((if failed result
              then [ ("   ❌ Error: " ++ get_error result)%string ] else [])
               ++ [ ""%string ])%list).
  { destruct (failed result); intros Hc; cbn in Hc;
      repeat (destruct Hc as [Hc | Hc]; try discriminate Hc); destruct Hc. }
  destruct (r_info_space result) as [[| space_info] |].
  - apply Ok_inj in H. subst lines.
    apply Hin; [assumption |]. apply Hin; [assumption |].
    apply Hin; [intros [] | assumption].
  - destruct (format_1f (hundred_minus (usage_percent space_info))) as [shown | e];
      [| discriminate H].
    apply Ok_inj in H. subst lines.
    apply Hin; [assumption |]. apply Hin; [assumption |].
    apply Hin; [| assumption].
    intros [Hc | []]. discriminate Hc.
  - apply Ok_inj in H. subst lines.
    apply Hin; [assumption |]. apply Hin; [assumption |].
    apply Hin; [intros [] | assumption].
Qed.

Lemma details_loop_spec (results : list Result) : forall i acc lines,
  details_loop i results acc = Ok lines ->
  exists details, lines = (acc ++ details)%list /\ ~ In summary_title details.
Proof.
  induction results as [| r rs IH]; intros i acc lines H; simpl in H.
  - inversion H; subst. exists []. rewrite app_nil_r. split; [reflexivity | intros []].
  - destruct (detail_lines i r) as [ls | e] eqn:E; [| discriminate H].
    destruct (IH _ _ _ H) as (details & -> & Hd).
    exists (ls ++ details)%list. split; [rewrite app_assoc; reflexivity |].
    intros Hc. apply in_app_or in Hc. destruct Hc as [Hc | Hc]; [| exact (Hd Hc)].
    exact (detail_lines_not_title _ _ _ E Hc).
Qed.

Lemma fixed_lines_not_title timestamp duration total successful failed_backups :
  ~ In summary_title (header_lines timestamp duration total successful failed_backups)
  /\ ~ In summary_title (footer_lines timestamp).
Proof.
  split; intros Hc; cbn in Hc;
    repeat (destruct Hc as [Hc | Hc]; [discriminate Hc |]);
    destruct Hc.
Qed.

(** The lines that the loop adds, result by result. *)
Lemma details_loop_entries (results : list Result) : forall i acc lines,
  details_loop i results acc = Ok lines ->
  exists entries : list (list string),
    lines = (acc ++ concat entries)%list /\
    length entries = length results /\
    forall k r, nth_error results k = Some r ->
      exists ls, nth_error entries k = Some ls /\
                 detail_lines (i + Z.of_nat k) r = Ok ls.
Proof.
  induction results as [| r0 rs IH]; intros i acc lines H; cbn [details_loop] in H.
  - apply Ok_inj in H. subst lines. exists [].
    split; [cbn [concat]; rewrite app_nil_r; reflexivity |].
    split; [reflexivity |].
    intros k r Hk. destruct k; discriminate Hk.
  - destruct (detail_lines i r0) as [ls0 | e] eqn:E0; [| discriminate H].
    destruct (IH _ _ _ H) as (entries & -> & Hlen & Hnth).
    exists (ls0 :: entries).
    split; [cbn [concat]; rewrite app_assoc; reflexivity |].
    split; [cbn [length]; rewrite Hlen; reflexivity |].
    intros k r Hk. destruct k as [| k].
    + injection Hk as <-. exists ls0. split; [reflexivity |].
      replace (i + Z.of_nat 0) with i by lia. exact E0.
    + cbn [nth_error] in Hk. destruct (Hnth _ _ Hk) as (ls & Hls & Hd).
      exists ls. split; [exact Hls |].
      replace (i + Z.of_nat (S k)) with (i + 1 + Z.of_nat k) by lia. exact Hd.
Qed.

(** What [_create_email_content] returns is the join of [email_lines] at the
    time the clock gave. *)
Lemma _create_email_content_lines (results : list Result) (duration : float)
  (st st' : state W) (subject content : string) :
  _create_email_content U results duration st = (Ok (subject, content), st') ->
  subject = email_subject (Z.of_nat (length (filter (@failed Time) results)))
                          (Z.of_nat (length results)) /\
  exists lines,
    email_lines (fst (datetime_now U (world st))) results duration = Ok lines /\
    content = join nl lines.
Proof.
  intros H.
  unfold _create_email_content, bind, ext_total, lift, ret in H.
  destruct (datetime_now U (world st)) as [timestamp w1]. cbn [fst].
  destruct (email_lines timestamp results duration) as [content_lines | e];
    [| discriminate H].
  injection H as Hs Hc _.
  rewrite failed_backups_count in Hs.
  split; [symmetry; exact Hs |].
  exists content_lines. split; [reflexivity | symmetry; exact Hc].
Qed.

(** The lines of the e-mail: the header, the entries of the results, the
    summary of the failed backups, the footer. *)
Lemma email_lines_entries (timestamp : string) (results : list Result)
  (duration : float) (lines : list string) :
  email_lines timestamp results duration = Ok lines ->
  let total := Z.of_nat (length results) in
  let successful := Z.of_nat (length (filter (@passed Time) results)) in
  let n_failed := Z.of_nat (length (filter (@failed Time) results)) in
  exists entries : list (list string),
    length entries = length results /\
    (forall k r, nth_error results k = Some r ->
       exists ls, nth_error entries k = Some ls /\
                  detail_lines (Z.of_nat k + 1) r = Ok ls) /\
    ~ In summary_title (concat entries) /\
    lines = (header_lines timestamp duration total successful n_failed
             ++ concat entries
             ++ summary_section n_failed results
             ++ footer_lines timestamp)%list.
Proof.
  intros H total successful n_failed.
  unfold email_lines in H. rewrite failed_backups_count in H.
  fold total successful n_failed in H.
  destruct (details_loop 1 results _) as [content_lines | e] eqn:Ed; [| discriminate H].
  apply Ok_inj in H.
  destruct (details_loop_entries _ _ _ _ Ed) as (entries & Hlines & Hlen & Hnth).
  destruct (details_loop_spec _ _ _ _ Ed) as (details & Hlines' & Hd).
  rewrite Hlines in Hlines'. apply app_inv_head in Hlines'. subst details.
  exists entries. split; [exact Hlen |]. split.
  - intros k r Hk. destruct (Hnth _ _ Hk) as (ls & Hls & Hdl).
    exists ls. split; [exact Hls |].
    replace (Z.of_nat k + 1) with (1 + Z.of_nat k) by lia. exact Hdl.
  - split; [exact Hd |].
    rewrite <- H, Hlines, <- app_assoc. reflexivity.
Qed.

Lemma summary_entry_not_title (r : Result) :
  "• " ++ r_name r ++ ": " ++ get_error r <> summary_title.
Proof. cbn. discriminate. Qed.

(** The title of the summary is a line of the summary section once when a
    backup failed, and it is no line of an empty section. *)
Lemma summary_section_title (n_failed : Z) (results : list Result) :
  count_occ string_dec (summary_section n_failed results) summary_title
  = if 0 <? n_failed then 1%nat else 0%nat.
Proof.
  unfold summary_section. destruct (0 <? n_failed); [| reflexivity].
  cbn [app]. rewrite count_occ_cons_eq by reflexivity. f_equal.
  rewrite count_occ_cons_neq by (cbn; discriminate).
  rewrite count_occ_app. cbn [count_occ].
  destruct (string_dec "" summary_title) as [Hc | _]; [discriminate Hc |].
  rewrite Nat.add_0_r. apply count_occ_not_In.
  unfold summary_entries. intros Hin. apply in_map_iff in Hin.
  destruct Hin as (r & Hr & _). exact (summary_entry_not_title r Hr).
Qed.

(** C9.  When [_create_email_content] returns, the subject carries the
    warning sign and ["N/M Failed"] if some result failed, and the check mark
    and ["All M Passed"] otherwise.  The body is these lines joined by line
    feeds, and no others: the header with the time of the clock, the entry of
    every result in order (the lines [detail_lines] gives for it and its
    number), then, if and only if some result failed, the summary (its title,
    a rule, one line per failed result with its name and error, in order, and
    an empty line), then the footer.  The title of the summary is a line of
    the body once when a result failed; without a failed result the body is
    the header, the entries and the footer alone, and no line of it is the
    title. *)
Theorem email_content_shape (results : list Result) (duration : float)
  (st st' : state W) (subject content : string) :
  _create_email_content U results duration st = (Ok (subject, content), st') ->
  let total := Z.of_nat (length results) in
  let successful := Z.of_nat (length (filter (@passed Time) results)) in
  let n_failed := Z.of_nat (length (filter (@failed Time) results)) in
  let timestamp := fst (datetime_now U (world st)) in
  let header := header_lines timestamp duration total successful n_failed in
  let footer := footer_lines timestamp in
  let section :=
    (if 0 <? n_failed
     then [ summary_title; repeat_str "=" 50 ]
            ++ map (fun r => ("• " ++ r_name r ++ ": " ++ get_error r)%string)
                   (filter (@failed Time) results)
            ++ [ "" ]
     else [])%list in
  subject =
    (if 0 <? n_failed
     then "⚠️ Backup Check Alert - " ++ str_Z n_failed ++ "/" ++ str_Z total ++ " Failed"
     else "✅ Backup Check Success - All " ++ str_Z total ++ " Passed") /\
  exists entries : list (list string),
    length entries = length results /\
    (forall k r, nth_error results k = Some r ->
       exists ls, nth_error entries k = Some ls /\
                  detail_lines (Z.of_nat k + 1) r = Ok ls) /\
    content = join nl (header ++ concat entries ++ section ++ footer)%list /\
    count_occ string_dec (header ++ concat entries ++ section ++ footer)%list summary_title
      = (if 0 <? n_failed then 1%nat else 0%nat) /\
    (n_failed = 0 ->
       content = join nl (header ++ concat entries ++ footer)%list /\
       ~ In summary_title (header ++ concat entries ++ footer)%list).
Proof.
  intros H total successful n_failed timestamp header footer section.
  destruct (_create_email_content_lines _ _ _ _ _ _ H) as (Hs & lines & El & Hc).
  split; [exact Hs |].
  destruct (email_lines_entries _ _ _ _ El) as (entries & Hlen & Hnth & Hd & Hlines).
  fold total successful n_failed timestamp in Hlines. fold header footer in Hlines.
  assert (Hsection : summary_section n_failed results = section) by reflexivity.
  rewrite Hsection in Hlines.
  destruct (fixed_lines_not_title timestamp duration total successful n_failed)
    as [Hheader Hfooter].
  fold header in Hheader. fold footer in Hfooter.
  exists entries. split; [exact Hlen |]. split; [exact Hnth |].
  split; [rewrite Hc, Hlines; reflexivity |].
  split.
  - rewrite !count_occ_app. rewrite <- Hsection, summary_section_title.
    rewrite (proj1 (count_occ_not_In string_dec _ _) Hheader).
    rewrite (proj1 (count_occ_not_In string_dec _ _) Hd).
    rewrite (proj1 (count_occ_not_In string_dec _ _) Hfooter).
    destruct (0 <? n_failed); reflexivity.
  - intros Hz.
    assert (Hnil : section = []) by (subst section; rewrite Hz; reflexivity).
    split.
    + rewrite Hc, Hlines, Hnil. reflexivity.
    + intros Hin. apply in_app_or in Hin. destruct Hin as [Hin | Hin]; [tauto |].
      apply in_app_or in Hin. tauto.
Qed.

End EmailReport.

(** The report on [vm-100], which passes, and [vm-102], which is not
    mounted: one summary line. *)
Lemma email_content_shape_witness :
  exists content st',
    _create_email_content Demo.utils
      (Demo.value [] (run_all_checks Demo.utils [ Demo.vm100; Demo.vm102 ] "50 GB"
                        (Demo.start [])))
      0%float (Demo.start [])
    = (Ok ("⚠️ Backup Check Alert - 1/2 Failed", content), st') /\
    contains content
      "• vm-102: Directory not accessible or not mounted: /mnt/backup/vm-102".
Proof.
  pose (results := Demo.value [] (run_all_checks Demo.utils [ Demo.vm100; Demo.vm102 ]
                                    "50 GB" (Demo.start []))).
  pose (run := _create_email_content Demo.utils results 0%float (Demo.start [])).
  destruct (email_content_shape Demo.utils results 0%float (Demo.start []) (snd run)
              (fst (Demo.value ("", "") run)) (snd (Demo.value ("", "") run)))
    as (Hsubject & entries & _ & _ & Hcontent & _).
  - vm_compute. reflexivity.
  - exists (snd (Demo.value ("", "") run)), (snd run).
    split; [vm_compute; reflexivity |].
    rewrite Hcontent. apply contains_join.
    apply in_or_app. right. apply in_or_app. right. apply in_or_app. left.
    vm_compute. auto.
Defined.

(** ** Free space and the percentages *)

Section FreeSpace.

Context {W Time : Type} (U : python_utils W Time).

Local Abbreviation Result := (CheckResult Time).

(** C6.  With the helper [check_minimum_free_space] as the spec describes
    it, and the requirement parsed to [min_bytes]: the probe reports
    sufficient space exactly when the free bytes the helper read are
    [min_bytes] at least (they are the free bytes of the record when the disk
    did not change between the two readings), and the record holds
    [round(used / total * 100, 1)] as its usage percent when [total > 0], and
    the integer 0 otherwise. *)
Theorem free_space_verdict (backup_dir min_free : string)
  (message : string -> Z -> Z -> string) (st : state W) (min_bytes : Z)
  (total0 used0 free0 total used free : Z) (w1 w2 : W) (q : float) :
  check_minimum_free_space U = check_minimum_free_space_spec (get_disk_usage U) message ->
  parse_size_to_bytes U min_free = Ok min_bytes ->
  get_disk_usage U backup_dir (world st) = (Ok (total0, used0, free0), w1) ->
  get_disk_usage U backup_dir w1 = (Ok (total, used, free), w2) ->
  (0 < total -> PyFloat.truediv used total = inl q) ->
  exists sufficient msg info st',
    check_free_space U backup_dir min_free st = (Ok (sufficient, msg, SpaceData info), st') /\
    (sufficient = true <-> min_bytes <= free0) /\
    total_bytes info = total /\ used_bytes info = used /\ free_bytes info = free /\
    (free = free0 -> (sufficient = true <-> min_bytes <= free_bytes info)) /\
    (0 < total -> usage_percent info = PyFlt (PyFloat.round (q * 100)%float 1)) /\
    (total <= 0 -> usage_percent info = PyInt 0).
Proof.
  intros Hhelper Hparse Hread0 Hread Hdiv.
  unfold check_free_space, check_free_space_try, try_except, bind, lift, ext.
  rewrite Hparse, Hhelper. unfold check_minimum_free_space_spec.
  rewrite Hread0. cbn [world calls]. rewrite Hread.
  unfold compute_usage_percent, bind, lift_sum, ret.
  assert (Hiff : (min_bytes <=? free0) = true <-> min_bytes <= free0) by apply Z.leb_le.
  destruct (0 <? total) eqn:Et.
  - apply Z.ltb_lt in Et. rewrite (Hdiv Et).
    destruct (min_bytes <=? free0) eqn:El;
      (do 4 eexists; split; [reflexivity |];
       cbn [total_bytes used_bytes free_bytes usage_percent];
       repeat split; try exact (proj1 Hiff); try exact (proj2 Hiff);
       intros; subst; try apply Hiff; try assumption; try reflexivity; try lia).
  - apply Z.ltb_ge in Et.
    destruct (min_bytes <=? free0) eqn:El;
      (do 4 eexists; split; [reflexivity |];
       cbn [total_bytes used_bytes free_bytes usage_percent];
       repeat split; try exact (proj1 Hiff); try exact (proj2 Hiff);
       intros; subst; try apply Hiff; try assumption; try reflexivity; try lia).
Qed.

(** The line of the free space in the entry of a result that has space
    data. *)
Lemma detail_lines_free_space (i : Z) (result : Result) (space_info : SpaceInfo)
  (ls : list string) :
  r_info_space result = Some (SpaceData space_info) ->
  detail_lines i result = Ok ls ->
  exists shown,
    format_1f (hundred_minus (usage_percent space_info)) = inl shown /\
    In ("   Free space: " ++ free_human space_info ++ " (" ++ shown ++ "% free)") ls.
Proof.
  intros Hspace H.
  unfold detail_lines in H. rewrite Hspace in H.
  destruct (format_1f (hundred_minus (usage_percent space_info))) as [shown | e];
    [| discriminate H].
  exists shown. split; [reflexivity |].
  apply Ok_inj in H. subst ls.
  apply in_or_app. right. apply in_or_app. right. apply in_or_app. left.
  left. reflexivity.
Qed.

(** The entry of the [k]-th result stands in the body of the e-mail, and
    with it the line of its free space. *)
Lemma free_space_line_in_body (results : list Result) (duration : float)
  (st st' : state W) (subject content : string)
  (k : nat) (result : Result) (space_info : SpaceInfo) :
  _create_email_content U results duration st = (Ok (subject, content), st') ->
  nth_error results k = Some result ->
  r_info_space result = Some (SpaceData space_info) ->
  exists shown entry before after,
    format_1f (hundred_minus (usage_percent space_info)) = inl shown /\
    detail_lines (Z.of_nat k + 1) result = Ok entry /\
    In ("   Free space: " ++ free_human space_info ++ " (" ++ shown ++ "% free)") entry /\
    email_lines (fst (datetime_now U (world st))) results duration
      = Ok (before ++ entry ++ after)%list /\
    content = join nl (before ++ entry ++ after)%list /\
    contains content
      ("   Free space: " ++ free_human space_info ++ " (" ++ shown ++ "% free)").
Proof.
  intros H Hk Hspace.
  destruct (_create_email_content_lines _ _ _ _ _ _ _ H) as (_ & lines & El & Hc).
  destruct (email_lines_entries _ _ _ _ El) as (entries & _ & Hnth & _ & Hlines).
  destruct (Hnth _ _ Hk) as (entry & Hentry & Hd).
  destruct (detail_lines_free_space _ _ _ _ Hspace Hd) as (shown & Hshown & Hin).
  destruct (nth_error_split _ _ Hentry) as (l1 & l2 & -> & _).
  rewrite concat_app in Hlines. cbn [concat] in Hlines.
  rewrite <- !app_assoc in Hlines. rewrite app_assoc in Hlines.
  rewrite Hlines in El, Hc.
  eexists shown, entry, _, _.
  split; [exact Hshown |]. split; [exact Hd |]. split; [exact Hin |].
  split; [exact El |]. split; [exact Hc |].
  rewrite Hc. apply contains_join.
  apply in_or_app. right. apply in_or_app. left. exact Hin.
Qed.

End FreeSpace.

(** C10.  The free percentage in the body of the e-mail is
    [100 - usage_percent] formatted with one decimal, where [usage_percent]
    is the rounded value the probe stored: when [_create_email_content]
    returns, the entry of every result with space data has the line
    ["   Free space: <free> (<100 - usage_percent>% free)"], and the entry
    stands in the body.  It is not [round(free / total * 100, 1)]: for a
    target on a disk of 2000 bytes of which 1 is used and 1999 are free, the
    checks store a usage of 0.1 and the body of the e-mail on their results
    shows 99.9% free, where the share of the free bytes rounds to 100.0. *)
Theorem free_percent_shown {W Time : Type} (U : python_utils W Time) :
  (forall (results : list (CheckResult Time)) (duration : float) (st st' : state W)
          (subject content : string)
          (k : nat) (result : CheckResult Time) (space_info : SpaceInfo),
      _create_email_content U results duration st = (Ok (subject, content), st') ->
      nth_error results k = Some result ->
      r_info_space result = Some (SpaceData space_info) ->
      exists shown entry before after,
        format_1f (hundred_minus (usage_percent space_info)) = inl shown /\
        detail_lines (Z.of_nat k + 1) result = Ok entry /\
        In ("   Free space: " ++ free_human space_info ++ " (" ++ shown ++ "% free)")
           entry /\
        email_lines (fst (datetime_now U (world st))) results duration
          = Ok (before ++ entry ++ after)%list /\
        content = join nl (before ++ entry ++ after)%list /\
        contains content
          ("   Free space: " ++ free_human space_info ++ " (" ++ shown ++ "% free)")) /\
  (exists result space_info st1 subject content st2 direct,
      run_all_checks Demo.utils [ Rounding.vm104 ] "0 GB" Rounding.start
        = (Ok [ result ], st1) /\
      r_info_space result = Some (SpaceData space_info) /\
      total_bytes space_info = 2000 /\
      used_bytes space_info = 1 /\
      free_bytes space_info = 1999 /\
      free_human space_info = "1999 B" /\
      (forall st : state W, compute_usage_percent 1 2000 st
                            = (Ok (usage_percent space_info), st)) /\
      _create_email_content Demo.utils [ result ] 0%float st1
        = (Ok (subject, content), st2) /\
      contains content "   Free space: 1999 B (99.9% free)" /\
      (forall st : state W, compute_usage_percent 1999 2000 st = (Ok direct, st)) /\
      format_1f direct = inl "100.0").
Proof.
  split.
  - intros results duration st st' subject content k result space_info.
    apply free_space_line_in_body.
  - assert (Hrun : exists result space_info st1 subject content st2,
              run_all_checks Demo.utils [ Rounding.vm104 ] "0 GB" Rounding.start
                = (Ok [ result ], st1) /\
              r_info_space result = Some (SpaceData space_info) /\
              total_bytes space_info = 2000 /\
              used_bytes space_info = 1 /\
              free_bytes space_info = 1999 /\
              free_human space_info = "1999 B" /\
              (forall st : state W, compute_usage_percent 1 2000 st
                                    = (Ok (usage_percent space_info), st)) /\
              format_1f (hundred_minus (usage_percent space_info)) = inl "99.9" /\
              _create_email_content Demo.utils [ result ] 0%float st1
                = (Ok (subject, content), st2)).
    { do 6 eexists.
      split; [vm_compute; reflexivity |].
      split; [vm_compute; reflexivity |].
      split; [reflexivity |]. split; [reflexivity |]. split; [reflexivity |].
      split; [reflexivity |].
      split; [intros st; vm_compute; reflexivity |].
      split; vm_compute; reflexivity. }
    destruct Hrun as (result & space_info & st1 & subject & content & st2
                      & Hrun & Hspace & Ht & Hu & Hf & Hhuman & Hstored & Hshown & Hmail).
    destruct (free_space_line_in_body Demo.utils [ result ] 0%float st1 st2
                subject content 0 result space_info Hmail eq_refl Hspace)
      as (shown & _ & _ & _ & Hshown' & _ & _ & _ & _ & Hc).
    rewrite Hshown in Hshown'. injection Hshown' as <-. rewrite Hhuman in Hc.
    exists result, space_info, st1, subject, content, st2. eexists.
    repeat (split; [eassumption |]).
    split; [intros st; vm_compute; reflexivity | vm_compute; reflexivity].
Qed.

(** The probe on [vm-100]: 50 GB used of 100 GB, 50 GB free against a
    requirement of 50 GB. *)
Lemma free_space_verdict_witness :
  exists msg info st',
    check_free_space Demo.utils "/mnt/backup/vm-100" "50 GB" (Demo.start []) =
      (Ok (true, msg, SpaceData info), st') /\
    usage_percent info = PyFlt 50 /\
    free_bytes info = 50 * Demo.GB.
Proof.
  destruct (free_space_verdict Demo.utils "/mnt/backup/vm-100" "50 GB" Demo.shortfall_message
              (Demo.start []) (50 * Demo.GB)
              (100 * Demo.GB) (50 * Demo.GB) (50 * Demo.GB)
              (100 * Demo.GB) (50 * Demo.GB) (50 * Demo.GB)
              (Demo.the_world []) (Demo.the_world []) 0.5%float)
    as (sufficient & msg & info & st' & Hrun & Hiff & _ & _ & Hfree & _ & Hpct & _).
  - reflexivity.
  - reflexivity.
  - reflexivity.
  - reflexivity.
  - intros _. vm_compute. reflexivity.
  - assert (Hs : sufficient = true) by (apply Hiff; vm_compute; discriminate).
    subst sufficient. exists msg, info, st'.
    split; [exact Hrun |]. split; [| exact Hfree].
    rewrite Hpct by (vm_compute; reflexivity). vm_compute. reflexivity.
Defined.

(** ** The exit code *)

Section ExitCode.

Context {W Time : Type} (U : python_utils W Time).

Local Abbreviation Result := (CheckResult Time).

Lemma filter_all (A : Type) (p : A -> bool) (l : list A) :
  length (filter p l) = length l <-> Forall (fun x => p x = true) l.
Proof.
  induction l as [| x l IH]; simpl.
  - split; [constructor | reflexivity].
  - pose proof (filter_length_le p l) as Hle.
    destruct (p x) eqn:E; simpl; split; intros H.
    + constructor; [exact E |]. apply IH. lia.
    + inversion H; subst. f_equal. apply IH. assumption.
    + lia.
    + inversion H; subst. congruence.
Qed.

Lemma well_formed_length (configs : list BackupCheckConfig) (results : list Result) :
  Forall2 (@well_formed Time) configs results -> length results = length configs.
Proof. intros H. symmetry. eapply Forall2_length. exact H. Qed.

(** The code that [main] returns once the checks have run. *)
Lemma exit_code_after_checks (configs : list BackupCheckConfig) (results : list Result) :
  length results = length configs ->
  (if 0 <? Z.of_nat (length configs)
            - Z.of_nat (length (filter (fun r => r_success r) results))
   then 1 else 0) = 0
  <-> Forall (fun r : Result => r_success r = true) results.
Proof.
  intros Hlen. rewrite <- Hlen.
  pose proof (filter_length_le (fun r : Result => r_success r) results) as Hle.
  rewrite <- (filter_all _ (fun r : Result => r_success r) results).
  destruct (0 <? _) eqn:E.
  - apply Z.ltb_lt in E. split; [discriminate | lia].
  - apply Z.ltb_ge in E. split; [lia | reflexivity].
Qed.

(** A run that ends before the checks returns 1: after the crash alert,
    whether the alert went out or not, or at a [return 1]. *)
Ltac stopped :=
  eexists 1, _; split; [reflexivity |]; split; [right; reflexivity |];
  split; [discriminate |];
  let Hc := fresh "Hc" in
  intros (? & ? & ? & ? & Hc & _); discriminate Hc.

Ltac crashed :=
  match goal with
  | |- context [send_critical_backup_alert ?U ?m ?w] =>
      destruct (send_critical_backup_alert U m w) as [[[] | ?] ?]
  end; stopped.

(** C8.  [main], whose value is the exit code ([sys.exit(main())]),
    returns in every state, with code 0 or 1.  It returns 0 exactly when the
    start-up succeeded, the checks ran, and every result is successful; so it
    returns 1 when a target failed and when the run ended before there were
    results.  The outcome of the notifications is not part of the
    condition. *)
Theorem main_exit_code (st : state W) :
  exists code st',
    main U st = (Ok code, st') /\
    (code = 0 \/ code = 1) /\
    (code = 0 <->
     exists config st0 results st1,
       startup U st = (Ok (Some config), st0) /\
       run_all_checks U (backup_check_list config) (min_free_space config) st0
         = (Ok results, st1) /\
       Forall (fun r : Result => r_success r = true) results).
Proof.
  unfold main, startup, NotificationManager_init,
    bind, try_except, ext, ext_total, ret.
  destruct (time_time U (world st)) as [start_time w0]. cbn [world calls].
  destruct (setup_backup_logging U w0) as [[[] | e] w1]; cbn [world calls];
    [| crashed].
  destruct (config_path_exists U w1) as [[[|] | e] w2]; cbn [world calls negb];
    [| stopped | crashed].
  destruct (parse_config_file U w2) as [[config | e] w3]; cbn [world calls];
    [| stopped].
  destruct (EmailNotifier U w3) as [[[] | e] w4]; cbn [world calls]; [| crashed].
  destruct (PushoverNotifier U w4) as [[[] | e] w5]; cbn [world calls]; [| crashed].
  match goal with
  | |- context [run_all_checks U ?cs ?m ?s] =>
      destruct (run_all_checks_returns U m cs s) as (results & s6 & Hrun & Hwf);
      rewrite Hrun
  end.
  apply well_formed_length in Hwf.
  destruct (time_time U (world s6)) as [now w7].
  match goal with
  | |- context [send_notifications U config results ?d ?s] =>
      destruct (send_notifications_returns U config results d s)
        as (notification_success & s8 & Hsend);
      rewrite Hsend
  end.
  eexists _, s8. split; [reflexivity |].
  pose proof (exit_code_after_checks _ _ Hwf) as Hcode.
  split.
  - destruct (0 <? _); [right | left]; reflexivity.
  - rewrite Hcode. split.
    + intros Hall. do 4 eexists. repeat split; eassumption.
    + intros (config' & st0 & results' & st1 & Hc & Hrun' & Hall).
      injection Hc as -> <-.
      rewrite Hrun in Hrun'. injection Hrun' as <- _. exact Hall.
Qed.

End ExitCode.

(** ** The process *)

Section ProcessFacts.

Context {W Time : Type} (U : python_utils W Time).

(** The module of the notification manager does not compile. *)
Lemma import_notification_manager_raises :
  exists e, import_notification_manager = Raise e.
Proof. eexists. vm_compute. reflexivity. Qed.

(** So the process ends with status 1 in every world, and makes no call. *)
Lemma run_process_stops (st : state W) : run_process U st = (Ok 1, st).
Proof. reflexivity. Qed.

End ProcessFacts.

(** C5.  No push alert is sent when a target fails: at a configuration
    whose only target is not mounted the check fails and
    [send_notifications] would send one push alert, but the process ends
    without a call, so neither the e-mail nor the push goes out. *)
Theorem process_sends_no_alert :
  (exists r,
      fst (run_all_checks Demo.utils [ Demo.vm102 ] "50 GB" (Demo.start [ Demo.vm102 ]))
        = Ok [ r ] /\
      r_success r = false) /\
  (exists message title,
      In (Call_pushover_send message title 0)
         (calls (snd (main Demo.utils (Demo.start [ Demo.vm102 ]))))) /\
  calls (snd (run_process Demo.utils (Demo.start [ Demo.vm102 ]))) = [].
Proof.
  split; [| split].
  - eexists. split; vm_compute; reflexivity.
  - do 2 eexists. vm_compute. do 10 right. left. reflexivity.
  - rewrite run_process_stops. reflexivity.
Qed.

(** ** A run of three targets *)

(** Two targets pass and one is not mounted: three results, two successes
    and one failure, and a push alert in the form for a single failure. *)
Example two_pass_one_fails :
  let results :=
    Demo.value [] (run_all_checks Demo.utils [ Demo.vm100; Demo.vm102; Demo.vm100 ]
                     "50 GB" (Demo.start [])) in
  length results = 3%nat /\
  successful_count results = 2 /\
  failed_count results = 1 /\
  summary_entries results =
    [ "• vm-102: Directory not accessible or not mounted: /mnt/backup/vm-102" ] /\
  alert_title (critical_failures_of results) = "Backup Alert: vm-102".
Proof. vm_compute. repeat split; reflexivity. Qed.

(** * Further properties of the code *)

(** ** What the probes return *)

Section ProbeResults.

Context {W Time : Type} (U : python_utils W Time).

Local Abbreviation File := (FileObservation Time).

(** X3.  [check_directory_accessibility] makes exactly one call, whatever
    the helper does, and its message is empty exactly when it reports the
    directory accessible. *)
Theorem accessibility_message_iff (backup_dir : string) (st : state W) :
  exists accessible message w',
    check_directory_accessibility U backup_dir st =
      (Ok (accessible, message),
       mkState w' (calls st ++ [ Call_is_directory_accessible backup_dir ])) /\
    (accessible = true <-> message = "").
Proof.
  unfold check_directory_accessibility, check_directory_accessibility_try,
    try_except, bind, ext, ret.
  destruct (is_directory_accessible U backup_dir (world st)) as [[[|] | e] w'];
    cbn [negb]; do 3 eexists; (split; [reflexivity |]);
    split; intros H; try reflexivity; discriminate H.
Qed.

(** X4.  [check_free_space] returns data with every positive verdict, and
    the message of a positive verdict is empty; it returns the empty
    dictionary only together with [False] and a message that starts with
    "Error checking free space for" and the directory; and the readable sizes
    of the data are those of its byte counts. *)
Theorem free_space_result_shape (backup_dir min_free : string) (st : state W) :
  exists sufficient message info st',
    check_free_space U backup_dir min_free st = (Ok (sufficient, message, info), st') /\
    (sufficient = true -> message = "" /\ info <> SpaceEmpty) /\
    (info = SpaceEmpty ->
     sufficient = false /\
     exists e, message = "Error checking free space for " ++ backup_dir ++ ": " ++ e) /\
    (forall s, info = SpaceData s ->
       total_human s = bytes_to_human_readable U (total_bytes s) /\
       used_human s = bytes_to_human_readable U (used_bytes s) /\
       free_human s = bytes_to_human_readable U (free_bytes s) /\
       (usage_percent s = PyInt 0 \/ exists f, usage_percent s = PyFlt f)).
Proof.
  unfold check_free_space, check_free_space_try, try_except, bind, lift, ext, ret.
  destruct (parse_size_to_bytes U min_free) as [min_bytes | e].
  2: { do 4 eexists. split; [reflexivity |]. repeat split; try discriminate; eauto. }
  destruct (check_minimum_free_space U backup_dir min_bytes (world st))
    as [[[has_space message] | e] w1]; cbn [world calls].
  2: { do 4 eexists. split; [reflexivity |]. repeat split; try discriminate; eauto. }
  destruct (get_disk_usage U backup_dir w1) as [[[[total used] free] | e] w2];
    cbn [world calls].
  2: { do 4 eexists. split; [reflexivity |]. repeat split; try discriminate; eauto. }
  unfold compute_usage_percent, bind, lift_sum, ret.
  destruct (0 <? total).
  - destruct (PyFloat.truediv used total) as [q | e].
    + destruct has_space; do 4 eexists; (split; [reflexivity |]);
        (split; [intros H; first [discriminate H | split; [reflexivity | discriminate]] |]);
        (split; [discriminate |]);
        intros s Hs; injection Hs as <-; cbn; repeat split; eauto.
    + do 4 eexists. split; [reflexivity |]. repeat split; try discriminate; eauto.
  - destruct has_space; do 4 eexists; (split; [reflexivity |]);
      (split; [intros H; first [discriminate H | split; [reflexivity | discriminate]] |]);
      (split; [discriminate |]);
      intros s Hs; injection Hs as <-; cbn; repeat split; eauto.
Qed.

End ProbeResults.

(** ** The report of the freshness probe *)

Section FreshnessReport.

Context {W Time : Type} (U : python_utils W Time).

Local Abbreviation File := (FileObservation Time).

Lemma hd_error_some {A : Type} (l : list A) :
  l <> [] -> exists x, hd_error l = Some x /\ In x l.
Proof. destruct l as [| x l]; [contradiction |]. intros _. exists x. simpl. auto. Qed.

Lemma last_or_none_some {A : Type} (l : list A) :
  l <> [] -> exists x, last_or_none l = Some x /\ In x l.
Proof.
  intros Hne. unfold last_or_none.
  destruct (hd_error_some (rev l)) as (x & Hx & Hin).
  - intros Hr. apply Hne. rewrite <- (rev_involutive l), Hr. reflexivity.
  - exists x. split; [exact Hx |]. apply in_rev. exact Hin.
Qed.

Lemma sort_desc_not_nil (l : list File) : l <> [] -> sort_desc U l <> [].
Proof.
  intros Hne Hs. apply Hne. apply length_zero_iff_nil.
  rewrite <- (sort_desc_length U l), Hs. reflexivity.
Qed.

(** X5.  [check_backup_freshness] makes exactly one call, for the direct
    entries of the directory.  A positive verdict has an empty message and a
    record that counts at least one file.  The empty dictionary only comes
    with [False] and a message that starts with "Error checking backup
    freshness for" and the directory.  A record always carries the minimum
    size of the configuration; when it counts no file its total is 0 and it
    has no report list, no oldest and no newest file, and the verdict is
    negative; when it counts files, its report list has
    [min(5, file_count)] entries and it names an oldest and a newest file. *)
Theorem freshness_result_shape (backup_config : BackupCheckConfig) (st : state W) :
  exists valid message info w',
    check_backup_freshness U backup_config st =
      (Ok (valid, message, info),
       mkState w' (calls st ++
                   [ Call_get_files_modified_within_days (cfg_backup_dir backup_config)
                       (cfg_days backup_config) false ])) /\
    (valid = true ->
     message = "" /\ exists b, info = BackupData b /\ 0 < file_count b) /\
    (info = BackupEmpty ->
     valid = false /\
     exists e, message = "Error checking backup freshness for "
                           ++ cfg_backup_dir backup_config ++ ": " ++ e) /\
    (forall b, info = BackupData b ->
       backup_min_required_human b = cfg_min_size backup_config /\
       0 <= file_count b /\
       (file_count b = 0 ->
        valid = false /\ total_size_bytes b = 0 /\ files b = None /\
        oldest_file b = None /\ newest_file b = None) /\
       (0 < file_count b ->
        total_size_human b = bytes_to_human_readable U (total_size_bytes b) /\
        exists reported newest oldest,
          files b = Some reported /\
          Z.of_nat (length reported) = Z.min 5 (file_count b) /\
          newest_file b = Some newest /\ oldest_file b = Some oldest)).
Proof.
  unfold check_backup_freshness, check_backup_freshness_try, try_except, bind, ext,
    lift, ret.
  destruct (get_files_modified_within_days U _ _ false (world st))
    as [[[| f fs] | e] w'].
  - (* no file *)
    do 4 eexists. split; [reflexivity |].
    split; [discriminate |]. split; [discriminate |].
    intros b Hb. injection Hb as <-. cbn.
    repeat split; try reflexivity; try lia.
  - (* some files *)
    rewrite collect_files_spec.
    set (sorted := sort_desc U (map (file_detail U) (f :: fs))).
    assert (Hne : sorted <> []) by (apply sort_desc_not_nil; discriminate).
    assert (Hpos : 0 < Z.of_nat (length sorted)).
    { destruct sorted; [contradiction | cbn [length]; lia]. }
    destruct (hd_error_some sorted Hne) as (newest & Hnewest & _).
    destruct (last_or_none_some sorted Hne) as (oldest & Holdest & _).
    assert (Hshape : forall b,
               b = {| file_count := Z.of_nat (length sorted);
                      total_size_bytes := sum_sizes (f :: fs);
                      total_size_human :=
                        bytes_to_human_readable U (sum_sizes (f :: fs));
                      files := Some (firstn 5 sorted);
                      oldest_file := last_or_none sorted;
                      newest_file := hd_error sorted;
                      backup_min_required_human := cfg_min_size backup_config |} ->
               backup_min_required_human b = cfg_min_size backup_config /\
               0 <= file_count b /\
               (file_count b = 0 -> False) /\
               (0 < file_count b ->
                total_size_human b = bytes_to_human_readable U (total_size_bytes b) /\
                exists reported newest oldest,
                  files b = Some reported /\
                  Z.of_nat (length reported) = Z.min 5 (file_count b) /\
                  newest_file b = Some newest /\ oldest_file b = Some oldest)).
    { intros b ->.
      cbn [backup_min_required_human file_count total_size_bytes total_size_human
           files oldest_file newest_file].
      split; [reflexivity |]. split; [lia |]. split; [lia |].
      intros _. split; [reflexivity |].
      exists (firstn 5 sorted), newest, oldest.
      repeat split; try assumption. rewrite length_firstn, Nat2Z.inj_min. lia. }
    destruct (get_min_size_bytes U backup_config) as [min_size_bytes | e].
    + destruct (sum_sizes (f :: fs) <? min_size_bytes);
        do 4 eexists; (split; [reflexivity |]).
      * split; [discriminate |]. split; [discriminate |].
        intros b Hb. injection Hb as <-.
        destruct (Hshape _ eq_refl) as (H1 & H2 & H3 & H4).
        split; [exact H1 |]. split; [exact H2 |].
        split; [intros H0; exfalso; exact (H3 H0) | exact H4].
      * split; [intros _; split; [reflexivity |]; eexists; split;
                [reflexivity | exact Hpos] |].
        split; [discriminate |].
        intros b Hb. injection Hb as <-.
        destruct (Hshape _ eq_refl) as (H1 & H2 & H3 & H4).
        split; [exact H1 |]. split; [exact H2 |].
        split; [intros H0; exfalso; exact (H3 H0) | exact H4].
    + do 4 eexists. split; [reflexivity |].
      split; [discriminate |].
      split; [intros _; split; [reflexivity | eauto] |].
      discriminate.
  - do 4 eexists. split; [reflexivity |].
    split; [discriminate |].
    split; [intros _; split; [reflexivity | eauto] |].
    discriminate.
Qed.

End FreshnessReport.

(** ** The order of the report *)

Section ReportOrder.

Context {W Time : Type} (U : python_utils W Time).

Local Abbreviation File := (FileObservation Time).

Hypothesis time_lt_asym :
  forall a b, time_lt U a b = true -> time_lt U b a = false.
Hypothesis time_ge_trans :
  forall a b c, time_lt U a b = false -> time_lt U b c = false -> time_lt U a c = false.

Lemma hd_error_first {A : Type} (R : A -> A -> Prop) (l : list A) (x : A) :
  (forall a, R a a) -> StronglySorted R l -> hd_error l = Some x ->
  forall y, In y l -> R x y.
Proof.
  intros Hrefl Hs Hx y Hy. destruct l as [| z l]; [discriminate Hx |].
  injection Hx as ->. apply StronglySorted_inv in Hs. destruct Hs as [_ Hall].
  destruct Hy as [<- | Hy]; [apply Hrefl |].
  rewrite Forall_forall in Hall. apply Hall, Hy.
Qed.

Lemma strongly_sorted_last {A : Type} (R : A -> A -> Prop) (l : list A) (x : A) :
  (forall a, R a a) -> StronglySorted R l -> last_or_none l = Some x ->
  forall y, In y l -> R y x.
Proof.
  intros Hrefl Hs Hx y Hy. unfold last_or_none in Hx.
  destruct (rev l) as [| z r] eqn:Er; [discriminate Hx |].
  injection Hx as ->.
  assert (El : l = (rev r ++ [x])%list).
  { rewrite <- (rev_involutive l), Er. reflexivity. }
  subst l. apply in_app_or in Hy. destruct Hy as [Hy | [<- | []]]; [| apply Hrefl].
  eapply strongly_sorted_split; [exact Hs | exact Hy | left; reflexivity].
Qed.

Lemma not_older_refl (a : File) : not_older U a a.
Proof.
  unfold not_older.
  destruct (time_lt U (modified_time a) (modified_time a)) eqn:E; [| reflexivity].
  rewrite (time_lt_asym _ _ E) in E. discriminate E.
Qed.

(** Files of a sorted report that are older than [x] lie behind [x]: none of
    them is modified at the time [t] when [x] is. *)
Lemma older_not_same_time (t : Time) (x y : File) (l : list File) :
  StronglySorted (not_older U) (y :: l) ->
  time_lt U (modified_time y) (modified_time x) = true ->
  same_time U t x = true ->
  filter (same_time U t) (y :: l) = [].
Proof.
  intros Hs Hyx Hx.
  apply andb_prop in Hx. destruct Hx as [Htx Hxt].
  apply negb_true_iff in Htx, Hxt.
  assert (Hall : forall z, In z (y :: l) -> same_time U t z = false).
  { intros z Hz.
    assert (Hyz : not_older U y z).
    { apply StronglySorted_inv in Hs. destruct Hs as [_ Hall].
      destruct Hz as [<- | Hz]; [apply not_older_refl |].
      rewrite Forall_forall in Hall. apply Hall, Hz. }
    unfold same_time.
    destruct (time_lt U (modified_time z) t) eqn:Ezt;
      [rewrite andb_false_r; reflexivity |].
    exfalso.
    pose proof (time_ge_trans _ _ _ Hyz (time_ge_trans _ _ _ Ezt Htx)) as Hc.
    rewrite Hc in Hyx. discriminate Hyx. }
  revert Hall. generalize (y :: l). clear.
  intros l' Hall. induction l' as [| z l' IH]; [reflexivity |].
  cbn [filter]. rewrite (Hall z (or_introl eq_refl)).
  apply IH. intros z' Hz'. apply Hall. right. exact Hz'.
Qed.

Lemma insert_desc_stable (t : Time) (x : File) (l : list File) :
  StronglySorted (not_older U) l ->
  filter (same_time U t) (insert_desc U x l)
  = (filter (same_time U t) l ++ filter (same_time U t) [ x ])%list.
Proof.
  induction l as [| y l IH]; intros Hs; [reflexivity |].
  cbn [insert_desc].
  destruct (time_lt U (modified_time y) (modified_time x)) eqn:E.
  - cbn [filter]. destruct (same_time U t x) eqn:Ex.
    + pose proof (older_not_same_time t x y l Hs E Ex) as Hnone.
      cbn [filter] in Hnone. rewrite Hnone. reflexivity.
    + rewrite app_nil_r. reflexivity.
  - cbn [filter]. apply StronglySorted_inv in Hs. destruct Hs as [Hs _].
    rewrite (IH Hs).
    destruct (same_time U t y); reflexivity.
Qed.

Lemma sort_desc_from_stable (t : Time) (l : list File) : forall sorted,
  StronglySorted (not_older U) sorted ->
  filter (same_time U t) (fold_left (fun sorted x => insert_desc U x sorted) l sorted)
  = (filter (same_time U t) sorted ++ filter (same_time U t) l)%list.
Proof.
  induction l as [| x l IH]; intros sorted Hs; cbn [fold_left].
  - rewrite app_nil_r. reflexivity.
  - rewrite IH.
    + rewrite (insert_desc_stable t x sorted Hs), <- app_assoc, <- filter_app.
      reflexivity.
    + apply Sorted_StronglySorted.
      * intros a b c Hab Hbc. exact (time_ge_trans _ _ _ Hab Hbc).
      * apply insert_desc_sorted; [exact time_lt_asym |].
        apply StronglySorted_Sorted. exact Hs.
Qed.

End ReportOrder.

Section ReportOrderTheorems.

Context {W Time : Type} (U : python_utils W Time).

Local Abbreviation File := (FileObservation Time).

(** X6.  The sort of the report is stable: when Python's [<] on modification
    times is an order, the entries modified at any one time come out of
    [file_details.sort(..., reverse=True)] in the order of the listing, so
    the listing decides which of them are among the five reported. *)
Theorem sort_desc_stable (l : list File) (t : Time) :
  (forall a b, time_lt U a b = true -> time_lt U b a = false) ->
  (forall a b c, time_lt U a b = false -> time_lt U b c = false -> time_lt U a c = false) ->
  filter (same_time U t) (sort_desc U l) = filter (same_time U t) l.
Proof.
  intros Hasym Htrans. unfold sort_desc.
  rewrite (sort_desc_from_stable U Hasym Htrans t l []); [reflexivity | constructor].
Qed.

(** X7.  When the listing holds files and the minimum size is known, the
    newest file of the record is an entry of the listing that is not older
    than any entry, the oldest file is an entry than which none is older,
    every reported entry is an entry of the listing, and with at most five
    files the report is the whole listing, rearranged. *)
Theorem freshness_extremes (backup_config : BackupCheckConfig) (st : state W) (w' : W)
  (recent_files : list (string * Z * Time)) (min_size_bytes : Z) :
  (forall a b, time_lt U a b = true -> time_lt U b a = false) ->
  (forall a b c, time_lt U a b = false -> time_lt U b c = false -> time_lt U a c = false) ->
  get_files_modified_within_days U (cfg_backup_dir backup_config) (cfg_days backup_config)
    false (world st) = (Ok recent_files, w') ->
  recent_files <> [] ->
  get_min_size_bytes U backup_config = Ok min_size_bytes ->
  let entries := map (file_detail U) recent_files in
  exists valid message info st' newest oldest reported,
    check_backup_freshness U backup_config st = (Ok (valid, message, BackupData info), st') /\
    newest_file info = Some newest /\ In newest entries /\
    (forall f, In f entries -> not_older U newest f) /\
    oldest_file info = Some oldest /\ In oldest entries /\
    (forall f, In f entries -> not_older U f oldest) /\
    files info = Some reported /\
    (forall f, In f reported -> In f entries) /\
    ((length recent_files <= 5)%nat -> Permutation reported entries).
Proof.
  intros Hasym Htrans Hfiles Hne Hmin entries.
  set (sorted := sort_desc U entries).
  assert (Hperm : Permutation sorted entries) by apply sort_desc_perm.
  assert (Hsorted : StronglySorted (not_older U) sorted)
    by (apply sort_desc_sorted; assumption).
  assert (Hnn : sorted <> []).
  { apply sort_desc_not_nil. unfold entries. destruct recent_files; [contradiction |].
    discriminate. }
  destruct (hd_error_some sorted Hnn) as (newest & Hnewest & Hin_n).
  destruct (last_or_none_some sorted Hnn) as (oldest & Holdest & Hin_o).
  assert (Hrefl : forall a : File, not_older U a a)
    by (intros a; apply not_older_refl; assumption).
  assert (Hrun : exists valid message info st',
             check_backup_freshness U backup_config st
               = (Ok (valid, message, BackupData info), st') /\
             newest_file info = hd_error sorted /\
             oldest_file info = last_or_none sorted /\
             files info = Some (firstn 5 sorted)).
  { unfold check_backup_freshness, check_backup_freshness_try, try_except, bind, ext,
      lift, ret.
    rewrite Hfiles. destruct recent_files as [| f fs]; [contradiction |].
    rewrite collect_files_spec, Hmin. fold entries. fold sorted.
    destruct (sum_sizes (f :: fs) <? min_size_bytes);
      do 4 eexists; repeat split; reflexivity. }
  destruct Hrun as (valid & message & info & st' & Hrun & Hn & Ho & Hf).
  exists valid, message, info, st', newest, oldest, (firstn 5 sorted).
  split; [exact Hrun |].
  split; [rewrite Hn; exact Hnewest |].
  split; [exact (Permutation_in _ Hperm Hin_n) |].
  split.
  { intros f Hin. apply (hd_error_first _ sorted newest Hrefl Hsorted Hnewest).
    exact (Permutation_in _ (Permutation_sym Hperm) Hin). }
  split; [rewrite Ho; exact Holdest |].
  split; [exact (Permutation_in _ Hperm Hin_o) |].
  split.
  { intros f Hin. apply (strongly_sorted_last _ sorted oldest Hrefl Hsorted Holdest).
    exact (Permutation_in _ (Permutation_sym Hperm) Hin). }
  split; [exact Hf |].
  split.
  { intros f Hin. apply (Permutation_in _ Hperm).
    rewrite <- (firstn_skipn 5 sorted). apply in_or_app. left. exact Hin. }
  intros Hlen. rewrite firstn_all2; [exact Hperm |].
  unfold sorted. rewrite sort_desc_length. unfold entries. rewrite length_map. exact Hlen.
Qed.

End ReportOrderTheorems.

(** ** One round of the loop, and the loop *)

Section Rounds.

Context {W Time : Type} (U : python_utils W Time).

Local Abbreviation Result := (CheckResult Time).

Lemma check_free_space_calls backup_dir min_free st r st' :
  check_free_space U backup_dir min_free st = (r, st') ->
  exists new,
    calls st' = (calls st ++ new)%list /\
    Forall is_checker_call new /\ (length new <= 2)%nat.
Proof.
  unfold check_free_space, check_free_space_try, try_except, bind, lift, ext, ret.
  destruct (parse_size_to_bytes U min_free) as [min_bytes | e].
  2: { intros H. injection H as _ <-. exists []. rewrite app_nil_r.
       repeat split; [constructor | cbn; lia]. }
  destruct (check_minimum_free_space U backup_dir min_bytes (world st))
    as [[[has_space message] | e] w1]; cbn [world calls].
  2: { intros H. injection H as _ <-. eexists [ _ ]. cbn [calls].
       repeat split; [repeat constructor | cbn; lia]. }
  destruct (get_disk_usage U backup_dir w1) as [[[[total used] free] | e] w2];
    cbn [world calls].
  2: { intros H. injection H as _ <-. eexists [ _; _ ]. cbn [calls].
       rewrite <- app_assoc.
       repeat split; [repeat constructor | cbn; lia]. }
  unfold compute_usage_percent, bind, lift_sum, ret.
  destruct (0 <? total); [destruct (PyFloat.truediv used total) as [q | e] |];
    destruct has_space;
    intros H; injection H as _ <-; eexists [ _; _ ]; cbn [calls];
    rewrite <- app_assoc; (repeat split; [repeat constructor | cbn; lia]).
Qed.

Lemma check_backup_freshness_calls backup_config st r st' :
  check_backup_freshness U backup_config st = (r, st') ->
  calls st' =
    (calls st ++ [ Call_get_files_modified_within_days (cfg_backup_dir backup_config)
                     (cfg_days backup_config) false ])%list.
Proof.
  unfold check_backup_freshness, check_backup_freshness_try, try_except, bind, ext,
    lift, ret.
  destruct (get_files_modified_within_days U _ _ false (world st))
    as [[[| f fs] | e] w'].
  - intros H. injection H as _ <-. reflexivity.
  - destruct (collect_files U (f :: fs)) as [total_size unsorted].
    destruct (get_min_size_bytes U backup_config) as [m | e];
      [destruct (total_size <? m) |];
      intros H; injection H as _ <-; reflexivity.
  - intros H. injection H as _ <-. reflexivity.
Qed.

(** X8.  For a target whose directory is accessible, [run_all_checks] runs
    the free-space probe and then the freshness probe, whatever the first
    one returned.  The result is successful exactly when both are; it keeps
    the data of both under ['info']; its errors are the free-space error and
    then the freshness error, each with its prefix; and ['error'] is absent on
    success and is the errors joined by "; " otherwise. *)
Theorem accessible_target_runs_both_probes (c : BackupCheckConfig) (min_free : string)
  (st st1 : state W) (note : string) :
  check_directory_accessibility U (cfg_backup_dir c) st = (Ok (true, note), st1) ->
  exists has_space space_error space_info st2 is_fresh freshness_error backup_info st3,
    check_free_space U (cfg_backup_dir c) min_free st1 =
      (Ok (has_space, space_error, space_info), st2) /\
    check_backup_freshness U c st2 = (Ok (is_fresh, freshness_error, backup_info), st3) /\
    let errors :=
      ((if has_space then [] else [ ("Insufficient free space: " ++ space_error)%string ])
       ++ (if is_fresh then []
           else [ ("Backup validation failed: " ++ freshness_error)%string ]))%list in
    check_one U min_free c st =
      (Ok {| r_name := cfg_name c; r_backup_dir := cfg_backup_dir c;
             r_success := has_space && is_fresh;
             r_errors := errors;
             r_warnings := [];
             r_info_space := Some space_info;
             r_info_backup := Some backup_info;
             r_error := if has_space && is_fresh then None
                        else Some (join "; " errors) |}, st3).
Proof.
  intros Hacc.
  destruct (check_free_space_returns U (cfg_backup_dir c) min_free st1)
    as ([[has_space space_error] space_info] & st2 & Hspace).
  destruct (check_backup_freshness_returns U c st2)
    as ([[is_fresh freshness_error] backup_info] & st3 & Hfresh).
  exists has_space, space_error, space_info, st2, is_fresh, freshness_error,
    backup_info, st3.
  split; [exact Hspace |]. split; [exact Hfresh |].
  unfold check_one.
  rewrite (bind_ok _ _ _ _ _ Hacc). cbn [negb].
  rewrite (bind_ok _ _ _ _ _ Hspace), (bind_ok _ _ _ _ _ Hfresh).
  destruct has_space, is_fresh; reflexivity.
Qed.

Lemma check_one_calls min_free c st r st' :
  check_one U min_free c st = (r, st') ->
  exists new,
    calls st' = (calls st ++ new)%list /\
    Forall is_checker_call new /\ (1 <= length new <= 4)%nat.
Proof.
  unfold check_one. intros H.
  destruct (check_directory_accessibility U (cfg_backup_dir c) st)
    as [[[accessible note] | e] st1] eqn:Eacc.
  2: { destruct (check_directory_accessibility_returns U (cfg_backup_dir c) st)
         as (a & s & Ea). rewrite Ea in Eacc. discriminate Eacc. }
  pose proof (check_directory_accessibility_calls U _ _ _ _ Eacc) as Hc1.
  rewrite (bind_ok _ _ _ _ _ Eacc) in H.
  destruct accessible; cbn [negb] in H.
  - destruct (check_free_space U (cfg_backup_dir c) min_free st1)
      as [[[[has_space space_error] space_info] | e] st2] eqn:Espace.
    2: { destruct (check_free_space_returns U (cfg_backup_dir c) min_free st1)
           as (a & s & Ea). rewrite Ea in Espace. discriminate Espace. }
    destruct (check_free_space_calls _ _ _ _ _ Espace) as (new2 & Hc2 & Hk2 & Hl2).
    rewrite (bind_ok _ _ _ _ _ Espace) in H.
    destruct (check_backup_freshness U c st2)
      as [[[[is_fresh freshness_error] backup_info] | e] st3] eqn:Efresh.
    2: { destruct (check_backup_freshness_returns U c st2) as (a & s & Ea).
         rewrite Ea in Efresh. discriminate Efresh. }
    pose proof (check_backup_freshness_calls _ _ _ _ Efresh) as Hc3.
    rewrite (bind_ok _ _ _ _ _ Efresh) in H. unfold ret in H.
    injection H as _ <-.
    exists ([ Call_is_directory_accessible (cfg_backup_dir c) ] ++ new2
            ++ [ Call_get_files_modified_within_days (cfg_backup_dir c) (cfg_days c)
                   false ])%list.
    split; [rewrite Hc3, Hc2, Hc1, <- !app_assoc; reflexivity |].
    split.
    + apply Forall_app. split; [repeat constructor |].
      apply Forall_app. split; [exact Hk2 | repeat constructor].
    + rewrite !length_app. cbn [length]. lia.
  - unfold ret in H. injection H as _ <-.
    exists [ Call_is_directory_accessible (cfg_backup_dir c) ].
    split; [exact Hc1 |]. split; [repeat constructor | cbn; lia].
Qed.

(** X9.  The checks of a list of targets are the checks of its first part
    followed by the checks of the rest, run from the state the first part
    left: a target is checked the same way whatever comes before it in the
    list. *)
Theorem run_all_checks_concat (pre post : list BackupCheckConfig) (min_free : string)
  (st : state W) :
  exists rs1 st1 rs2 st2,
    run_all_checks U pre min_free st = (Ok rs1, st1) /\
    run_all_checks U post min_free st1 = (Ok rs2, st2) /\
    run_all_checks U (pre ++ post) min_free st = (Ok (rs1 ++ rs2)%list, st2).
Proof.
  destruct (run_all_checks_returns U min_free pre st) as (rs1 & st1 & E1 & _).
  destruct (run_all_checks_returns U min_free post st1) as (rs2 & st2 & E2 & _).
  exists rs1, st1, rs2, st2. split; [exact E1 |]. split; [exact E2 |].
  eapply run_all_checks_app; eassumption.
Qed.

Lemma run_all_checks_adds_calls (configs : list BackupCheckConfig) (min_free : string) :
  forall st results st',
  run_all_checks U configs min_free st = (Ok results, st') ->
  exists new, calls st' = (calls st ++ new)%list /\ Forall is_checker_call new.
Proof.
  induction configs as [| c cs IH]; intros st results st' H.
  - rewrite run_all_checks_nil in H. injection H as _ <-.
    exists []. rewrite app_nil_r. split; [reflexivity | constructor].
  - destruct (check_one_returns U min_free c st) as (r & st1 & E1 & _).
    destruct (run_all_checks_returns U min_free cs st1) as (rs & st2 & E2 & _).
    rewrite (run_all_checks_cons _ _ _ _ _ _ _ _ _ E1 E2) in H. injection H as _ <-.
    destruct (check_one_calls _ _ _ _ _ E1) as (new1 & Hc1 & Hk1 & _).
    destruct (IH _ _ _ E2) as (new2 & Hc2 & Hk2).
    exists (new1 ++ new2)%list.
    split; [rewrite Hc2, Hc1, app_assoc; reflexivity |].
    apply Forall_app. split; assumption.
Qed.

(** X10.  [run_all_checks] only adds to the calls made so far, and what it
    adds are calls of the four file-system helpers, never with
    subdirectories and never a notification: at least one and at most four
    for each target. *)
Theorem run_all_checks_calls (configs : list BackupCheckConfig) (min_free : string)
  (st : state W) :
  exists results st' new,
    run_all_checks U configs min_free st = (Ok results, st') /\
    calls st' = (calls st ++ new)%list /\
    Forall is_checker_call new /\
    (length configs <= length new <= 4 * length configs)%nat.
Proof.
  revert st. induction configs as [| c cs IH]; intros st.
  - exists [], st, []. rewrite app_nil_r.
    repeat split; [constructor | cbn; lia | cbn; lia].
  - destruct (check_one_returns U min_free c st) as (r & st1 & E1 & _).
    destruct (check_one_calls _ _ _ _ _ E1) as (new1 & Hc1 & Hk1 & Hl1).
    destruct (IH st1) as (rs & st2 & new2 & E2 & Hc2 & Hk2 & Hl2).
    exists (r :: rs), st2, (new1 ++ new2)%list.
    split; [eapply run_all_checks_cons; eassumption |].
    split; [rewrite Hc2, Hc1, app_assoc; reflexivity |].
    split; [apply Forall_app; split; assumption |].
    rewrite length_app. cbn [length]. lia.
Qed.

End Rounds.

(** ** The e-mail after a run of the checks *)

Section EmailAfterChecks.

Context {W Time : Type} (U : python_utils W Time).

Local Abbreviation Result := (CheckResult Time).

Lemma check_free_space_usage backup_dir min_free st b msg s st' :
  check_free_space U backup_dir min_free st = (Ok (b, msg, SpaceData s), st') ->
  usage_percent s = PyInt 0 \/ exists f, usage_percent s = PyFlt f.
Proof.
  unfold check_free_space, check_free_space_try, try_except, bind, lift, ext, ret.
  destruct (parse_size_to_bytes U min_free) as [min_bytes | e]; [| discriminate].
  destruct (check_minimum_free_space U backup_dir min_bytes (world st))
    as [[[has_space message] | e] w1]; [| discriminate].
  cbn [world calls].
  destruct (get_disk_usage U backup_dir w1) as [[[[total used] free] | e] w2];
    [| discriminate].
  unfold compute_usage_percent, bind, lift_sum, ret.
  destruct (0 <? total); [destruct (PyFloat.truediv used total) as [q | e] |];
    try discriminate;
    destruct has_space; intros H; injection H as _ _ <- _; cbn; eauto.
Qed.

Lemma check_one_printable min_free c st r st' :
  check_one U min_free c st = (Ok r, st') -> printable r.
Proof.
  unfold check_one. intros H.
  destruct (check_directory_accessibility_returns U (cfg_backup_dir c) st)
    as ([accessible note] & st1 & Eacc).
  rewrite (bind_ok _ _ _ _ _ Eacc) in H.
  destruct accessible; cbn [negb] in H.
  - destruct (check_free_space_returns U (cfg_backup_dir c) min_free st1)
      as ([[has_space space_error] space_info] & st2 & Espace).
    rewrite (bind_ok _ _ _ _ _ Espace) in H.
    destruct (check_backup_freshness_returns U c st2)
      as ([[is_fresh freshness_error] backup_info] & st3 & Efresh).
    rewrite (bind_ok _ _ _ _ _ Efresh) in H. unfold ret in H.
    injection H as <- _.
    intros s Hs.
    assert (Hinfo : space_info = SpaceData s).
    { destruct has_space, is_fresh; cbn in Hs; injection Hs as ->; reflexivity. }
    subst space_info. eapply check_free_space_usage. exact Espace.
  - unfold ret in H. injection H as <- _. intros s Hs. discriminate Hs.
Qed.

Lemma run_all_checks_printable min_free configs : forall st results st',
  run_all_checks U configs min_free st = (Ok results, st') ->
  Forall printable results.
Proof.
  induction configs as [| c cs IH]; intros st results st' H.
  - rewrite run_all_checks_nil in H. injection H as <- _. constructor.
  - destruct (check_one_returns U min_free c st) as (r & st1 & E1 & _).
    destruct (run_all_checks_returns U min_free cs st1) as (rs & st2 & E2 & _).
    rewrite (run_all_checks_cons _ _ _ _ _ _ _ _ _ E1 E2) in H.
    injection H as <- _. constructor.
    + eapply check_one_printable. exact E1.
    + eapply IH. exact E2.
Qed.

(** [f"{100 - 0:.1f}"] *)
Lemma format_all_free : format_1f (hundred_minus (PyInt 0)) = inl "100.0".
Proof. vm_compute. reflexivity. Qed.

Lemma detail_lines_printable (i : Z) (r : Result) :
  printable r -> exists lines, detail_lines i r = Ok lines.
Proof.
  intros Hp. unfold detail_lines.
  destruct (r_info_space r) as [[| s] |] eqn:Es; eauto.
  destruct (Hp s Es) as [Hu | [f Hu]]; rewrite Hu.
  - rewrite format_all_free. eauto.
  - cbn [hundred_minus format_1f]. eauto.
Qed.

Lemma details_loop_printable (results : list Result) : forall i acc,
  Forall printable results -> exists lines, details_loop i results acc = Ok lines.
Proof.
  induction results as [| r rs IH]; intros i acc Hp; cbn [details_loop]; eauto.
  inversion Hp as [| r' rs' Hr Hrs]; subst.
  destruct (detail_lines_printable i r Hr) as (ls & ->).
  apply IH. exact Hrs.
Qed.

Lemma _send_email_summary_printable (config : AppConfig) (results : list Result)
  (duration : float) (st2 : state W) :
  Forall printable results ->
  exists subject content sent w3,
    send_email U (to_email config) subject content (snd (datetime_now U (world st2)))
    = (sent, w3) /\
    _send_email_summary U config results duration st2 =
      (Ok match sent with Ok b => b | Raise _ => false end,
       mkState w3 (calls st2 ++ [ Call_datetime_now;
                                  Call_send_email (to_email config) subject content ])).
Proof.
  intros Hp.
  unfold _send_email_summary, _create_email_content, try_except, bind, ext_total, ext,
    lift, ret.
  destruct (datetime_now U (world st2)) as [timestamp w1]. cbn [world calls snd].
  unfold email_lines.
  destruct (details_loop_printable results 1
              (header_lines timestamp duration (Z.of_nat (length results))
                 (Z.of_nat (length (filter (@passed Time) results)))
                 (Z.of_nat (length results)
                  - Z.of_nat (length (filter (@passed Time) results)))) Hp)
    as (lines & ->).
  cbn [world calls].
  match goal with
  | |- context [Call_send_email ?a ?b ?c] => exists b, c
  end.
  destruct (send_email U _ _ _ w1) as [[b' | e] w3].
  - exists (Ok b'), w3. split; [reflexivity |]. rewrite <- app_assoc. reflexivity.
  - exists (Raise e), w3. split; [reflexivity |]. rewrite <- app_assoc. reflexivity.
Qed.

Lemma send_notifications_calls (config : AppConfig) (results : list Result)
  (duration : float) (st : state W) :
  Forall printable results ->
  exists sent st' subject content push_calls,
    send_notifications U config results duration st = (Ok sent, st') /\
    calls st' =
      (calls st ++ [ Call_datetime_now;
                     Call_send_email (to_email config) subject content ]
         ++ push_calls)%list /\
    (push_calls = [] \/ exists message title, push_calls = [ Call_pushover_send message title 0 ]).
Proof.
  intros Hp.
  destruct (_send_email_summary_printable config results duration st Hp)
    as (subject & content & sent & w3 & _ & E).
  unfold send_notifications. rewrite (bind_ok _ _ _ _ _ E).
  destruct (critical_failures_of results) as [| f fs].
  - unfold ret. do 2 eexists. exists subject, content, [].
    split; [reflexivity |]. cbn [calls]. rewrite app_nil_r. split; [reflexivity |].
    left. reflexivity.
  - destruct (_send_pushover_alerts_returns U (f :: fs) results duration
                (mkState w3 (calls st ++ [ Call_datetime_now;
                                           Call_send_email (to_email config) subject
                                             content ])))
      as (push_outcome & w4 & _ & P).
    rewrite (bind_ok _ _ _ _ _ P). unfold ret.
    do 2 eexists. exists subject, content. eexists [ _ ].
    split; [reflexivity |]. cbn [calls]. rewrite <- app_assoc.
    split; [reflexivity |]. right. eauto.
Qed.

(** X11.  The results of a run of [run_all_checks] can always be rendered:
    whatever the run returned, [_send_email_summary] on its results reads the
    clock and then makes exactly one call of [send_email], to the
    recipients of the configuration, and returns what that call returns, or
    [False] if it raises. *)
Theorem email_is_sent_after_checks (configs : list BackupCheckConfig) (min_free : string)
  (st : state W) :
  exists results st1,
    run_all_checks U configs min_free st = (Ok results, st1) /\
    forall (config : AppConfig) (duration : float) (st2 : state W),
    exists subject content sent w3,
      send_email U (to_email config) subject content (snd (datetime_now U (world st2)))
      = (sent, w3) /\
      _send_email_summary U config results duration st2 =
        (Ok match sent with Ok b => b | Raise _ => false end,
         mkState w3 (calls st2 ++ [ Call_datetime_now;
                                    Call_send_email (to_email config) subject content ])).
Proof.
  destruct (run_all_checks_returns U min_free configs st) as (results & st1 & Hrun & _).
  exists results, st1. split; [exact Hrun |].
  intros config duration st2.
  apply _send_email_summary_printable.
  eapply run_all_checks_printable. exact Hrun.
Qed.

End EmailAfterChecks.

(** ** The entries of the report *)

Section ReportEntries.

Context {Time : Type}.

Local Abbreviation Result := (CheckResult Time).

Lemma details_loop_nth (results : list Result) : forall i acc lines k r,
  details_loop i results acc = Ok lines ->
  nth_error results k = Some r ->
  exists ls, detail_lines (i + Z.of_nat k) r = Ok ls /\ incl ls lines.
Proof.
  induction results as [| r0 rs IH]; intros i acc lines k r H Hk.
  - destruct k; discriminate Hk.
  - cbn [details_loop] in H.
    destruct (detail_lines i r0) as [ls0 | e] eqn:E0; [| discriminate H].
    destruct k as [| k].
    + injection Hk as <-. exists ls0.
      replace (i + Z.of_nat 0) with i by lia. split; [exact E0 |].
      destruct (details_loop_spec _ _ _ _ H) as (details & -> & _).
      intros x Hx. apply in_or_app. left. apply in_or_app. right. exact Hx.
    + cbn [nth_error] in Hk.
      destruct (IH _ _ _ _ _ H Hk) as (ls & Hls & Hincl).
      exists ls. split; [| exact Hincl].
      replace (i + Z.of_nat (S k)) with (i + 1 + Z.of_nat k) by lia. exact Hls.
Qed.

Lemma detail_lines_content (i : Z) (r : Result) (ls : list string) :
  detail_lines i r = Ok ls ->
  In (str_Z i ++ ". " ++ r_name r ++ " - " ++ status_text r) ls /\
  In ("   Directory: " ++ r_backup_dir r) ls /\
  (r_success r = false -> In ("   ❌ Error: " ++ get_error r) ls) /\
  (r_success r = true -> forall e, ~ In ("   ❌ Error: " ++ e) ls) /\
  (forall b, r_info_backup r = Some (BackupData b) ->
     In ("   Files: " ++ str_Z (file_count b) ++ ", Size: " ++ total_size_human b) ls).
Proof.
  unfold detail_lines, status_text, passed, failed. intros H.
  set (space_lines :=
         match r_info_space r with
         | Some (SpaceData space_info) =>
             match format_1f (hundred_minus (usage_percent space_info)) with
             | inl free_percent =>
                 Ok [ "   Free space: " ++ free_human space_info
                        ++ " (" ++ free_percent ++ "% free)" ]
             | inr e => Raise e
             end
         | _ => Ok []
         end) in H.
  assert (Hspace : forall sl, space_lines = Ok sl ->
                   forall e, ~ In ("   ❌ Error: " ++ e) sl).
  { intros sl Hsl e Hin. unfold space_lines in Hsl.
    destruct (r_info_space r) as [[| s] |].
    - apply Ok_inj in Hsl. subst sl. destruct Hin.
    - destruct (format_1f (hundred_minus (usage_percent s))); [| discriminate Hsl].
      apply Ok_inj in Hsl. subst sl. destruct Hin as [Hin | []]. discriminate Hin.
    - apply Ok_inj in Hsl. subst sl. destruct Hin. }
  destruct space_lines as [sl | e]; [| discriminate H].
  specialize (Hspace sl eq_refl).
  apply Ok_inj in H. subst ls.
  split; [left; reflexivity |].
  split; [right; left; reflexivity |].
  split; [| split].
  - intros Hf. rewrite Hf. cbn [negb].
    apply in_or_app. right. apply in_or_app. right. apply in_or_app. right.
    apply in_or_app. left. left. reflexivity.
  - intros Hs e Hin. rewrite Hs in Hin. cbn [negb] in Hin.
    apply in_app_or in Hin. destruct Hin as [[Hin | [Hin | []]] | Hin].
    + cbn in Hin. apply (f_equal (fun s => String.get 0 s)) in Hin.
      unfold str_Z in Hin. destruct (Z.to_int i) as [d | d];
        cbn [NilZero.string_of_int] in Hin; destruct d; cbn in Hin; discriminate Hin.
    + discriminate Hin.
    + apply in_app_or in Hin. destruct Hin as [Hin | Hin].
      * destruct (r_info_backup r) as [[| b] |]; try destruct Hin as [Hin | []];
          try discriminate Hin; destruct Hin.
      * apply in_app_or in Hin. destruct Hin as [Hin | Hin]; [exact (Hspace e Hin) |].
        cbn in Hin. destruct Hin as [Hin | []]. discriminate Hin.
  - intros b Hb. rewrite Hb.
    apply in_or_app. right. apply in_or_app. left. left. reflexivity.
Qed.

(** X12.  When the lines of the e-mail can be produced, every result has
    its entry in them: the [k]-th result (counting from 0) has a line with
    the number [k + 1], its name and its status, a line with its directory,
    a line with its number of files and their size if it has backup data,
    and a line with its error if it failed. *)
Theorem email_lists_every_target (timestamp : string) (results : list Result)
  (duration : float) (lines : list string) (k : nat) (r : Result) :
  email_lines timestamp results duration = Ok lines ->
  nth_error results k = Some r ->
  In (str_Z (Z.of_nat k + 1) ++ ". " ++ r_name r ++ " - " ++ status_text r) lines /\
  In ("   Directory: " ++ r_backup_dir r) lines /\
  (r_success r = false -> In ("   ❌ Error: " ++ get_error r) lines) /\
  (forall b, r_info_backup r = Some (BackupData b) ->
     In ("   Files: " ++ str_Z (file_count b) ++ ", Size: " ++ total_size_human b) lines).
Proof.
  intros H Hk. unfold email_lines in H.
  destruct (details_loop 1 results _) as [content_lines | e] eqn:Ed; [| discriminate H].
  apply Ok_inj in H. subst lines.
  destruct (details_loop_nth _ _ _ _ _ _ Ed Hk) as (ls & Hls & Hincl).
  replace (1 + Z.of_nat k) with (Z.of_nat k + 1) in Hls by lia.
  destruct (detail_lines_content _ _ _ Hls) as (H1 & H2 & H3 & _ & H5).
  assert (Hin : forall x, In x ls ->
                In x (content_lines
                      ++ summary_section
                           (Z.of_nat (length results)
                            - Z.of_nat (length (filter (@passed Time) results))) results
                      ++ footer_lines timestamp)%list).
  { intros x Hx. apply in_or_app. left. apply Hincl, Hx. }
  repeat split; auto.
Qed.

End ReportEntries.

(** ** The runs of [main] *)

Section MainRuns.

Context {W Time : Type} (U : python_utils W Time).

Local Abbreviation Result := (CheckResult Time).

(** The message of the crash alert for an exception [e]. *)
Definition crash_message (e : string) : string :=
  "Proxmox Backup Checker CRASHED: " ++ "Critical application error: " ++ e.

Ltac not_this_case H :=
  exfalso;
  first [ discriminate H
        | let p := fresh in
          destruct H as (p & H);
          apply app_inj_tail in H; destruct H as [_ H]; discriminate H ].

(** X13.  When the configuration file is missing, [main] returns 1 after
    three calls: the clock, the logging set-up and the look for the file.  It
    runs no check, sends no notification and no crash alert. *)
Theorem main_without_configuration_file (st st0 : state W) :
  startup U st = (Ok None, st0) ->
  main U st = (Ok 1, st0) /\
  calls st0 =
    (calls st ++ [ Call_time; Call_setup_backup_logging; Call_config_path_exists ])%list.
Proof.
  unfold main, startup, NotificationManager_init,
    bind, try_except, ext, ext_total, ret.
  destruct (time_time U (world st)) as [start_time w0]. cbn [world calls].
  destruct (setup_backup_logging U w0) as [[[] | e] w1]; cbn [world calls];
    [| discriminate].
  destruct (config_path_exists U w1) as [[[|] | e] w2]; cbn [world calls negb];
    [| | discriminate].
  - destruct (parse_config_file U w2) as [[config | e] w3]; cbn [world calls];
      [| discriminate].
    destruct (EmailNotifier U w3) as [[[] | e] w4]; cbn [world calls]; [| discriminate].
    destruct (PushoverNotifier U w4) as [[[] | e] w5]; discriminate.
  - intros H. injection H as <-. split; [reflexivity |]. cbn [calls].
    rewrite <- !app_assoc. reflexivity.
Qed.

(** X14.  When the start-up raises an exception [e], [main] returns 1
    without running a check.  If the exception comes from parsing the
    configuration it stops there; if it comes from the logging set-up, the
    look for the file or the building of a notifier, it first calls
    [send_critical_backup_alert] once, with a message that ends with [e], and
    returns 1 whether that call succeeds or raises. *)
Theorem main_startup_failure (st st0 : state W) (e : string) :
  startup U st = (Raise e, st0) ->
  ((exists before, calls st0 = before ++ [ Call_parse_config_file ])%list ->
   main U st = (Ok 1, st0)) /\
  ((forall before, calls st0 <> before ++ [ Call_parse_config_file ])%list ->
   exists alert w',
     send_critical_backup_alert U (crash_message e) (world st0) = (alert, w') /\
     main U st =
       (Ok 1, mkState w' (calls st0 ++ [ Call_send_critical_backup_alert (crash_message e) ]))).
Proof.
  unfold main, startup, NotificationManager_init, crash_message,
    bind, try_except, ext, ext_total, ret.
  destruct (time_time U (world st)) as [start_time w0]. cbn [world calls].
  destruct (setup_backup_logging U w0) as [[[] | e1] w1]; cbn [world calls].
  2: { intros H. injection H as <- <-. cbn [world calls]. split.
       - intros Hc. not_this_case Hc.
       - intros _.
         destruct (send_critical_backup_alert U _ w1) as [[[] | e2] w'] eqn:Ea;
           do 2 eexists; split; reflexivity. }
  destruct (config_path_exists U w1) as [[[|] | e1] w2]; cbn [world calls negb].
  3: { intros H. injection H as <- <-. cbn [world calls]. split.
       - intros Hc. not_this_case Hc.
       - intros _.
         destruct (send_critical_backup_alert U _ w2) as [[[] | e2] w'] eqn:Ea;
           do 2 eexists; split; reflexivity. }
  2: { discriminate. }
  destruct (parse_config_file U w2) as [[config | e1] w3]; cbn [world calls].
  2: { intros H. injection H as <- <-. cbn [world calls]. split.
       - intros _. reflexivity.
       - intros Hc. exfalso. eapply Hc. reflexivity. }
  destruct (EmailNotifier U w3) as [[[] | e1] w4]; cbn [world calls].
  2: { intros H. injection H as <- <-. cbn [world calls]. split.
       - intros Hc. not_this_case Hc.
       - intros _.
         destruct (send_critical_backup_alert U _ w4) as [[[] | e2] w'] eqn:Ea;
           do 2 eexists; split; reflexivity. }
  destruct (PushoverNotifier U w4) as [[[] | e1] w5]; cbn [world calls].
  2: { intros H. injection H as <- <-. cbn [world calls]. split.
       - intros Hc. not_this_case Hc.
       - intros _.
         destruct (send_critical_backup_alert U _ w5) as [[[] | e2] w'] eqn:Ea;
           do 2 eexists; split; reflexivity. }
  discriminate.
Qed.

(** X15.  When the start-up succeeds, [main] runs the checks, reads the
    clock, and sends the notifications, in this order: after the start-up its
    calls are calls of the file-system helpers, then the clock, the time
    stamp of the report and one [send_email] to the recipients of the
    configuration, then at most one push alert.  It sends no crash alert. *)
Theorem main_success_calls (st st0 : state W) (config : AppConfig) :
  startup U st = (Ok (Some config), st0) ->
  exists code st' checker_calls subject content push_calls,
    main U st = (Ok code, st') /\
    calls st' =
      (calls st0 ++ checker_calls
         ++ [ Call_time; Call_datetime_now;
              Call_send_email (to_email config) subject content ]
         ++ push_calls)%list /\
    Forall is_checker_call checker_calls /\
    (push_calls = [] \/
     exists message title, push_calls = [ Call_pushover_send message title 0 ]).
Proof.
  unfold main, startup, NotificationManager_init,
    bind, try_except, ext, ext_total, ret.
  destruct (time_time U (world st)) as [start_time w0]. cbn [world calls].
  destruct (setup_backup_logging U w0) as [[[] | e] w1]; cbn [world calls];
    [| discriminate].
  destruct (config_path_exists U w1) as [[[|] | e] w2]; cbn [world calls negb];
    [| discriminate | discriminate].
  destruct (parse_config_file U w2) as [[config' | e] w3]; cbn [world calls];
    [| discriminate].
  destruct (EmailNotifier U w3) as [[[] | e] w4]; cbn [world calls]; [| discriminate].
  destruct (PushoverNotifier U w4) as [[[] | e] w5]; cbn [world calls]; [| discriminate].
  intros H. injection H as -> <-.
  match goal with
  | |- context [run_all_checks U ?cs ?m ?s] =>
      destruct (run_all_checks_returns U m cs s) as (results & s6 & Hrun & _);
      rewrite Hrun
  end.
  destruct (run_all_checks_adds_calls U _ _ _ _ _ Hrun) as (checker_calls & Hc6 & Hk6).
  pose proof (run_all_checks_printable U _ _ _ _ _ Hrun) as Hp.
  destruct (time_time U (world s6)) as [now w7].
  match goal with
  | |- context [send_notifications U config results ?d ?s] =>
      destruct (send_notifications_calls U config results d s Hp)
        as (sent & s8 & subject & content & push_calls & Hsend & Hc8 & Hpush);
      rewrite Hsend
  end.
  eexists _, s8, checker_calls, subject, content, push_calls.
  split; [reflexivity |].
  split; [| split; assumption].
  rewrite Hc8. cbn [calls]. rewrite Hc6. cbn [calls].
  rewrite <- !app_assoc. reflexivity.
Qed.

End MainRuns.

(** ** Cleaning up the test logs *)

Section Cleanup.

Context {W : Type} (OS : os_module W).

Lemma cleanup_loop_removals (files : list string) : forall w,
  removals (snd (cleanup_loop OS files w))
  = map (fun file => "log/" ++ file) (filter is_test_log files)
  /\ length (printed (snd (cleanup_loop OS files w)))
     = length (filter is_test_log files).
Proof.
  induction files as [| file rest IH]; intros w; [split; reflexivity |].
  cbn [cleanup_loop filter].
  destruct (is_test_log file); [| apply IH].
  destruct (os_remove OS ("log/" ++ file) w) as [[[] | e] w1];
    specialize (IH w1); destruct (cleanup_loop OS rest w1) as [w2 events];
    cbn [snd removals printed map length] in *;
    destruct IH as [-> ->]; split; reflexivity.
Qed.


End Cleanup.

(** ** The further properties at work *)

(** Entries modified at the same time keep the order of the listing. *)
Lemma sort_desc_stable_witness :
  sort_desc Demo.utils Faults.tied
    = [ Faults.entry "b" 7; Faults.entry "d" 7; Faults.entry "a" 5; Faults.entry "c" 5 ] /\
  filter (same_time Demo.utils 5) (sort_desc Demo.utils Faults.tied)
    = [ Faults.entry "a" 5; Faults.entry "c" 5 ].
Proof.
  split; [reflexivity |].
  rewrite (sort_desc_stable Demo.utils Faults.tied 5).
  - reflexivity.
  - intros a b H. apply Z.ltb_lt in H. apply Z.ltb_ge. lia.
  - intros a b c H1 H2. apply Z.ltb_ge in H1, H2. apply Z.ltb_ge. lia.
Defined.

(** The six files of [vm-103]: the newest is [d], the oldest is [a]. *)
Lemma freshness_extremes_witness :
  exists valid message info st',
    check_backup_freshness Demo.utils Demo.vm103 (Demo.start []) =
      (Ok (valid, message, BackupData info), st') /\
    option_map path (newest_file info) = Some "vzdump-103-d.vma.zst" /\
    option_map path (oldest_file info) = Some "vzdump-103-a.vma.zst".
Proof.
  destruct (freshness_extremes Demo.utils Demo.vm103 (Demo.start []) (Demo.the_world [])
              Demo.vm103_files (5 * Demo.GB))
    as (valid & message & info & st' & newest & oldest & reported & Hrun & _).
  - intros a b H. apply Z.ltb_lt in H. apply Z.ltb_ge. lia.
  - intros a b c H1 H2. apply Z.ltb_ge in H1, H2. apply Z.ltb_ge. lia.
  - reflexivity.
  - discriminate.
  - reflexivity.
  - exists valid, message, info, st'. split; [exact Hrun |].
    vm_compute in Hrun. injection Hrun as _ _ <- _. split; reflexivity.
Defined.

(** [vm-101] is accessible: both probes run, the second one fails. *)
Lemma accessible_target_runs_both_probes_witness :
  exists r st',
    check_one Demo.utils "50 GB" Demo.vm101 (Demo.start []) = (Ok r, st') /\
    r_success r = false /\
    length (r_errors r) = 1%nat /\
    calls st' =
      [ Call_is_directory_accessible "/mnt/backup/vm-101";
        Call_check_minimum_free_space "/mnt/backup/vm-101" (50 * Demo.GB);
        Call_get_disk_usage "/mnt/backup/vm-101";
        Call_get_files_modified_within_days "/mnt/backup/vm-101" 7 false ].
Proof.
  destruct (accessible_target_runs_both_probes Demo.utils Demo.vm101 "50 GB"
              (Demo.start [])
              (snd (check_directory_accessibility Demo.utils "/mnt/backup/vm-101"
                      (Demo.start []))) "")
    as (has_space & space_error & space_info & st2 & is_fresh & freshness_error
        & backup_info & st3 & Hspace & Hfresh & Hone).
  - reflexivity.
  - vm_compute in Hspace. injection Hspace as <- <- <- <-.
    vm_compute in Hfresh. injection Hfresh as <- <- <- <-.
    do 2 eexists. split; [exact Hone |]. repeat split; reflexivity.
Defined.

(** The report on [vm-100] and [vm-102] has the entry of the second. *)
Lemma email_lists_every_target_witness :
  exists lines,
    email_lines "2024-05-01 06:00:00"
      (Demo.value [] (run_all_checks Demo.utils [ Demo.vm100; Demo.vm102 ] "50 GB"
                        (Demo.start []))) 0%float = Ok lines /\
    In "2. vm-102 - ❌ FAILED" lines /\
    In "   Directory: /mnt/backup/vm-102" lines.
Proof.
  pose (results := Demo.value [] (run_all_checks Demo.utils [ Demo.vm100; Demo.vm102 ]
                                    "50 GB" (Demo.start []))).
  pose (rendered := email_lines "2024-05-01 06:00:00" results 0%float).
  pose (lines := match rendered with Ok l => l | Raise _ => [] end).
  pose (r := nth 1 results (hd (@mkResult Z "" "" true [] [] None None None) results)).
  destruct (email_lists_every_target "2024-05-01 06:00:00" results 0%float lines 1 r)
    as (H1 & H2 & _).
  - vm_compute. reflexivity.
  - vm_compute. reflexivity.
  - exists lines. split; [vm_compute; reflexivity |]. split; [exact H1 | exact H2].
Defined.

(** Without [var/config.yaml]: three calls and the code 1. *)
Lemma main_without_configuration_file_witness :
  exists st0,
    main Demo.utils Faults.no_config = (Ok 1, st0) /\
    calls st0 = [ Call_time; Call_setup_backup_logging; Call_config_path_exists ].
Proof.
  destruct (main_without_configuration_file Demo.utils Faults.no_config
              (snd (startup Demo.utils Faults.no_config)))
    as [Hmain Hcalls].
  - reflexivity.
  - eexists. split; [exact Hmain | exact Hcalls].
Defined.

(** With a mailer that cannot be built: the crash alert, and the code 1. *)
Lemma main_startup_failure_witness :
  exists st',
    main Faults.no_mailer (Demo.start [ Demo.vm100 ]) = (Ok 1, st') /\
    last (calls st') Call_time =
      Call_send_critical_backup_alert
        "Proxmox Backup Checker CRASHED: Critical application error: SMTP_HOST is not set".
Proof.
  destruct (main_startup_failure Faults.no_mailer (Demo.start [ Demo.vm100 ])
              (snd (startup Faults.no_mailer (Demo.start [ Demo.vm100 ])))
              "SMTP_HOST is not set")
    as [_ Halert].
  - reflexivity.
  - destruct Halert as (alert & w' & _ & Hmain).
    + intros before H. vm_compute in H.
      change [ Call_time; Call_setup_backup_logging; Call_config_path_exists;
               Call_parse_config_file; Call_EmailNotifier ]
        with ([ Call_time; Call_setup_backup_logging; Call_config_path_exists;
                Call_parse_config_file ] ++ [ Call_EmailNotifier ])%list in H.
      apply app_inj_tail in H. destruct H as [_ H]. discriminate H.
    + eexists. split; [exact Hmain |]. vm_compute. reflexivity.
Defined.

(** With [vm-100] passing and [vm-102] not mounted: five calls of the
    helpers, then the e-mail and one push alert. *)
Lemma main_success_calls_witness :
  exists st' checker_calls subject content message title,
    main Demo.utils (Demo.start [ Demo.vm100; Demo.vm102 ]) = (Ok 1, st') /\
    length checker_calls = 5%nat /\
    calls st' =
      ([ Call_time; Call_setup_backup_logging; Call_config_path_exists;
         Call_parse_config_file; Call_EmailNotifier; Call_PushoverNotifier ]
       ++ checker_calls
       ++ [ Call_time; Call_datetime_now;
            Call_send_email [ "admin@example.org" ] subject content;
            Call_pushover_send message title 0 ])%list.
Proof.
  destruct (main_success_calls Demo.utils (Demo.start [ Demo.vm100; Demo.vm102 ])
              (snd (startup Demo.utils (Demo.start [ Demo.vm100; Demo.vm102 ])))
              (Demo.app_config [ Demo.vm100; Demo.vm102 ]))
    as (code & st' & checker_calls & subject & content & push_calls
        & Hmain & _).
  - reflexivity.
  - vm_compute in Hmain. injection Hmain as <- <-.
    eexists.
    exists [ Call_is_directory_accessible "/mnt/backup/vm-100";
             Call_check_minimum_free_space "/mnt/backup/vm-100" (50 * Demo.GB);
             Call_get_disk_usage "/mnt/backup/vm-100";
             Call_get_files_modified_within_days "/mnt/backup/vm-100" 7 false;
             Call_is_directory_accessible "/mnt/backup/vm-102" ].
    do 4 eexists. split; [reflexivity |]. split; [reflexivity |].
    vm_compute. reflexivity.
Defined.

